(** * sync_working_files_to_notion.py: a shallow embedding and its properties

    The script reads the rows of a worksheet that follow a persisted
    watermark, creates one Notion page per row that carries a description and
    finally overwrites the watermark.  Everything the script does to the
    outside (the state file, the three remote services, standard output) is
    modelled by explicit state passing over a [World]; exceptions are values
    of the error half of [result]. *)

From Stdlib Require Import ZArith NArith Ascii String List Strings.Byte Lia.
From Stdlib Require Import Decimal DecimalString DecimalPos DecimalZ.
From stdpp Require Import base option list gmap strings.

Local Open Scope string_scope.

(** ** The Python built-ins the script relies on

    A [string] is read as a sequence of code points below 256.  Integers are
    unbounded ([Z]); the interpreter's optional limit on the number of digits
    of a converted integer is not part of the model. *)

Module Py.

(** [str.isspace] on one code point below 256: TAB..CR, FS..US, SPACE,
    NEL and NBSP. *)
Definition isspace (c : ascii) : bool :=
  let n := N_of_ascii c in
  ((9 <=? n) && (n <=? 13) || (28 <=? n) && (n <=? 32)
   || (n =? 133) || (n =? 160))%N.

Fixpoint lstrip (s : string) : string :=
  match s with
  | EmptyString => EmptyString
  | String c s' => if isspace c then lstrip s' else s
  end.

Fixpoint rstrip (s : string) : string :=
  match s with
  | EmptyString => EmptyString
  | String c s' =>
      match rstrip s' with
      | EmptyString => if isspace c then EmptyString else String c EmptyString
      | r => String c r
      end
  end.

(** [s.strip()] *)
Definition strip (s : string) : string := rstrip (lstrip s).

Definition digit_value (c : ascii) : option Z :=
  let n := N_of_ascii c in
  if ((48 <=? n) && (n <=? 57))%N then Some (Z.of_N (n - 48)) else None.

(** The digit part of an integer literal: digits, single underscores
    allowed between two digits only.  [after_digit] tells whether the
    previous character was a digit. *)
Fixpoint int_digits (s : string) (acc : Z) (after_digit : bool) : option Z :=
  match s with
  | EmptyString => if after_digit then Some acc else None
  | String c s' =>
      match digit_value c with
      | Some d => int_digits s' (10 * acc + d) true
      | None =>
          if Ascii.eqb c "_" && after_digit then int_digits s' acc false
          else None
      end
  end.

(** [int(s)] in base ten; [None] stands for [ValueError].  Surrounding
    white space is ignored, one sign is accepted. *)
Definition int (s : string) : option Z :=
  match strip s with
  | EmptyString => None
  | String c s' =>
      if Ascii.eqb c "+" then int_digits s' 0 false
      else if Ascii.eqb c "-" then Z.opp <$> int_digits s' 0 false
      else int_digits (String c s') 0 false
  end.

(** [str(z)] for an integer. *)
Definition str (z : Z) : string := NilZero.string_of_int (Z.to_int z).

(** [s.split(sep)] for a one-character separator: never the empty list. *)
Fixpoint split (sep : ascii) (s : string) : list string :=
  match s with
  | EmptyString => [EmptyString]
  | String c s' =>
      if Ascii.eqb c sep then EmptyString :: split sep s'
      else match split sep s' with
           | [] => [String c EmptyString]
           | h :: t => String c h :: t
           end
  end.

(** [l.index(x)]: position of the first occurrence; [None] stands for
    [ValueError]. *)
Fixpoint index (x : string) (l : list string) : option nat :=
  match l with
  | [] => None
  | y :: l' => if String.eqb y x then Some 0 else S <$> index x l'
  end.

(** [s.startswith(p)] *)
Definition startswith (s p : string) : bool := String.prefix p s.

(** [sub in s] *)
Fixpoint contains (sub s : string) : bool :=
  String.prefix sub s ||
  match s with
  | EmptyString => false
  | String _ s' => contains sub s'
  end.

(** Truth value of a string, and of a value that may be [None]. *)
Definition truthy (s : string) : bool :=
  match s with EmptyString => false | String _ _ => true end.

Definition truthy_opt (o : option string) : bool :=
  match o with Some s => truthy s | None => false end.

Definition truthy_bytes (o : option (list byte)) : bool :=
  match o with Some (_ :: _) => true | _ => false end.

End Py.

(** ** Exceptions, requests and the world *)

(** The exceptions the script can meet.  All of them derive from Python's
    [Exception]; [ServiceError] stands for whatever a client library raises
    (an HTTP error, an API response error, a transport error). *)
Inductive exn : Type :=
| ValueError
| IndexError
| RuntimeError (msg : string)
| ServiceError (name : string).

Inductive result (A : Type) : Type :=
| Ok (a : A)
| Raise (e : exn).

Arguments Ok {A} a.
Arguments Raise {A} e.

(** The typed property payloads the script builds:
    [{"title": [{"type": "text", "text": {"content": c}}]}],
    [{"select": {"name": n}}], [{"rich_text": [{"text": {"content": c}}]}],
    [{"date": {"start": d}}] and [{"url": u}]. *)
Inductive payload : Type :=
| Title (content : string)
| Select (name : string)
| RichText (content : string)
| Date (start : string)
| Url (url : string).

(** A page block; the script never builds one. *)
Inductive block : Type := .

(** The keyword arguments of [notion.pages.create]. *)
Record page_request : Type := {
  parent_database_id : string;
  properties : gmap string payload;
  children : list block
}.

(** What the process does to the outside, in the order it does it.  A page
    creation is recorded with the exception it raised, if any. *)
Inductive event : Type :=
| SheetsValuesGet (spreadsheetId range : string)
| DriveExportMedia (fileId mimeType : string)
| NotionPagesCreate (req : page_request) (raised : option exn)
| StateFileWrite (content : string)
| PrintLine (line : string).

(** [state_file] is the text of [last_synced_row.txt], [None] when the file
    does not exist. *)
Record World : Type := {
  state_file : option string;
  trace : list event
}.

(** The remote collaborators.  Their answers may depend on everything that
    happened before the request. *)
Record Services : Type := {
  from_service_account_file : string -> option exn;
  sheets_values_get : World -> string -> string -> result (option (list (list string)));
  drive_export_media : World -> string -> string -> result (list byte);
  notion_pages_create : World -> page_request -> option exn
}.

(** Views of a trace. *)
Definition created_pages (tr : list event) : list page_request :=
  omap (fun ev => match ev with NotionPagesCreate req None => Some req | _ => None end) tr.

Definition failed_creations (tr : list event) : list page_request :=
  omap (fun ev => match ev with NotionPagesCreate req (Some _) => Some req | _ => None end) tr.

Definition file_writes (tr : list event) : list string :=
  omap (fun ev => match ev with StateFileWrite c => Some c | _ => None end) tr.

Definition export_requests (tr : list event) : list string :=
  omap (fun ev => match ev with DriveExportMedia i _ => Some i | _ => None end) tr.

Definition printed (tr : list event) : list string :=
  omap (fun ev => match ev with PrintLine l => Some l | _ => None end) tr.

(** ** A state and exception monad over the world *)

Definition M (A : Type) : Type := World -> World * result A.

Definition ret {A : Type} (a : A) : M A := fun w => (w, Ok a).

Definition raise {A : Type} (e : exn) : M A := fun w => (w, Raise e).

Definition bind {A B : Type} (m : M A) (k : A -> M B) : M B :=
  fun w =>
    match m w with
    | (w', Ok a) => k a w'
    | (w', Raise e) => (w', Raise e)
    end.

Notation "x <- m ;; k" := (bind m (fun x => k))
  (at level 100, m at next level, right associativity).
Notation "m ;; k" := (bind m (fun _ => k))
  (at level 100, right associativity).

Definition log (ev : event) (w : World) : World :=
  {| state_file := state_file w; trace := trace w ++ [ev] |}.

(** [print(line)] *)
Definition print (line : string) : M unit := fun w => (log (PrintLine line) w, Ok tt).

(** ** The script *)

Section Script.

Variable environ : gmap string string.
Variable svc : Services.

Local Open Scope Z_scope.

Definition get_google_services : M unit :=
  let creds_path := environ !! "GOOGLE_SERVICE_ACCOUNT_FILE" in
  if negb (Py.truthy_opt creds_path) then
    raise (RuntimeError
      "Environment variable GOOGLE_SERVICE_ACCOUNT_FILE must point to the service account JSON")
  else
    match from_service_account_file svc (default "" creds_path) with
    | Some e => raise e
    | None => ret tt
    end.

Definition read_sheet_rows (sheet_id worksheet_name : string) (start_row : Z)
  : M (list (list string)) :=
  let range_name := worksheet_name ++ "!A" ++ Py.str start_row ++ ":Z" in
  fun w =>
    let w' := log (SheetsValuesGet sheet_id range_name) w in
    match sheets_values_get svc w sheet_id range_name with
    | Ok result => (w', Ok (default [] result))
    | Raise e => (w', Raise e)
    end.

Definition get_last_synced_row : M Z :=
  fun w =>
    match state_file w with
    | None => ret 1 w
    | Some content =>
        match Py.int (Py.strip content) with
        | Some n => ret n w
        | None => ret 1 w
        end
    end.

Definition update_last_synced_row (row_index : Z) : M unit :=
  fun w =>
    ({| state_file := Some (Py.str row_index);
        trace := trace w ++ [StateFileWrite (Py.str row_index)] |}, Ok tt).

(** The first [try] block of [export_file_to_pdf]. *)
Definition parse_file_id (file_url : string) : result string :=
  let parts := Py.split "/" file_url in
  let found :=
    if Py.contains "drive.google.com" file_url then Py.index "d" parts
    else Py.index "d" parts in
  match found with
  | None => Raise ValueError
  | Some i =>
      let idx := (i + 1)%nat in
      match parts !! idx with
      | None => Raise IndexError
      | Some file_id => Ok file_id
      end
  end.

Definition export_file_to_pdf (file_url : string) : M (option (list byte)) :=
  match parse_file_id file_url with
  | Raise ValueError | Raise IndexError => ret None
  | Raise e => raise e
  | Ok file_id =>
      fun w =>
        let w' := log (DriveExportMedia file_id "application/pdf") w in
        match drive_export_media svc w file_id "application/pdf" with
        | Ok pdf_data => (w', Ok (Some pdf_data))
        | Raise _ => (w', Ok None)
        end
  end.

Definition notion_create_entry (database_id : string)
    (properties : gmap string payload)
    (file_bytes : option (list byte)) (file_name : option string) : M unit :=
  let children : list block := [] in
  let req := {| parent_database_id := database_id;
                properties := properties;
                children := children |} in
  fun w =>
    let raised := notion_pages_create svc w req in
    (log (NotionPagesCreate req raised) w,
     match raised with Some e => Raise e | None => Ok tt end).

(** [row[i] if len(row) > i else ""] *)
Definition cell (row : list string) (i : nat) : string :=
  if (i <? length row)%nat then default "" (row !! i) else "".

Definition build_properties (description category remark file_date : string)
    (file_url_for_notion : option string) : gmap string payload :=
  let properties : gmap string payload := {[ "File Name" := Title description ]} in
  let properties :=
    if Py.truthy category then <[ "Category" := Select category ]> properties
    else properties in
  let properties :=
    if Py.truthy remark then <[ "Remark" := RichText remark ]> properties
    else properties in
  let properties :=
    if Py.truthy file_date then <[ "File Date" := Date file_date ]> properties
    else properties in
  match file_url_for_notion with
  | Some u => if Py.truthy u then <[ "Link" := Url u ]> properties else properties
  | None => properties
  end.

(** One turn of the [for row in rows] loop, on the loop variables
    [(current_row, synced_count)]. *)
Definition process_row (notion_db_id : string) (st : Z * Z) (row : list string)
  : M (Z * Z) :=
  let '(current_row, synced_count) := st in
  let current_row := current_row + 1 in
  let description := cell row 1 in
  let link := cell row 2 in
  let pdf_link := cell row 3 in
  let category := cell row 4 in
  let remark := cell row 5 in
  let file_date := cell row 6 in
  if negb (Py.truthy description) then ret (current_row, synced_count)
  else
    resolved <-
      (if Py.truthy pdf_link then ret (None, None, Some pdf_link)
       else if Py.truthy link && Py.startswith link "http" then
         file_data <- export_file_to_pdf link ;;
         if Py.truthy_bytes file_data
         then ret (file_data, Some (description ++ ".pdf"), None)
         else ret (file_data, None, None)
       else ret (None, None, None)) ;;
    let '(file_data, file_name, file_url_for_notion) := resolved in
    let properties :=
      build_properties description category remark file_date file_url_for_notion in
    notion_create_entry notion_db_id properties file_data file_name ;;
    ret (current_row, synced_count + 1).

Fixpoint for_rows (notion_db_id : string) (st : Z * Z) (rows : list (list string))
  : M (Z * Z) :=
  match rows with
  | [] => ret st
  | row :: rows' =>
      st' <- process_row notion_db_id st row ;;
      for_rows notion_db_id st' rows'
  end.

Definition main : M unit :=
  let sheet_id := environ !! "SHEET_ID" in
  let worksheet_name := default "Microneedling" (environ !! "WORKSHEET_NAME") in
  let notion_key := environ !! "NOTION_API_KEY" in
  let notion_db_id := environ !! "NOTION_DATABASE_ID" in
  if negb (forallb Py.truthy_opt [sheet_id; notion_key; notion_db_id]) then
    raise (RuntimeError
      "SHEET_ID, NOTION_API_KEY, and NOTION_DATABASE_ID environment variables must be set")
  else
    let sheet_id := default "" sheet_id in
    let notion_db_id := default "" notion_db_id in
    get_google_services ;;
    last_row <- get_last_synced_row ;;
    let start := last_row + 1 in
    rows <- read_sheet_rows sheet_id worksheet_name start ;;
    match rows with
    | [] => print "No new rows to sync."
    | _ :: _ =>
        let current_row := last_row in
        let synced_count := 0 in
        st <- for_rows notion_db_id (current_row, synced_count) rows ;;
        let '(current_row, synced_count) := st in
        update_last_synced_row current_row ;;
        print ("Synced " ++ Py.str synced_count ++ " new records. Last synced row: "
               ++ Py.str current_row ++ ".")
    end.

(** The configuration [main] accepts and credentials that load. *)
Definition configured : Prop :=
  forallb Py.truthy_opt
    [environ !! "SHEET_ID"; environ !! "NOTION_API_KEY"; environ !! "NOTION_DATABASE_ID";
     environ !! "GOOGLE_SERVICE_ACCOUNT_FILE"] = true /\
  from_service_account_file svc (default "" (environ !! "GOOGLE_SERVICE_ACCOUNT_FILE")) = None.

(** What the row fetcher answers when [main] starts in world [w]: the
    watermark is read, then the rows after it are requested. *)
Definition fetched (w : World) : result (list (list string)) :=
  snd ((last_row <- get_last_synced_row ;;
        read_sheet_rows (default "" (environ !! "SHEET_ID"))
          (default "Microneedling" (environ !! "WORKSHEET_NAME")) (last_row + 1)) w).

(** The watermark [main] starts from in world [w]. *)
Definition watermark (w : World) : result Z := snd (get_last_synced_row w).

End Script.

(** * Vocabulary of the properties *)

Local Open Scope list_scope.

Module PySpec.

Import Py.

(** A string that is empty or starts with a visible character. *)
Definition starts_visible (s : string) : Prop :=
  match s with
  | EmptyString => True
  | String c _ => isspace c = false
  end.

(** A string without any white space. *)
Fixpoint visible (s : string) : Prop :=
  match s with
  | EmptyString => True
  | String c s' => isspace c = false /\ visible s'
  end.

(** The value of a decimal numeral read from the left with an accumulator. *)
Fixpoint uint_value (d : uint) (acc : Z) : Z :=
  match d with
  | Nil => acc
  | D0 d' => uint_value d' (10 * acc)
  | D1 d' => uint_value d' (10 * acc + 1)
  | D2 d' => uint_value d' (10 * acc + 2)
  | D3 d' => uint_value d' (10 * acc + 3)
  | D4 d' => uint_value d' (10 * acc + 4)
  | D5 d' => uint_value d' (10 * acc + 5)
  | D6 d' => uint_value d' (10 * acc + 6)
  | D7 d' => uint_value d' (10 * acc + 7)
  | D8 d' => uint_value d' (10 * acc + 8)
  | D9 d' => uint_value d' (10 * acc + 9)
  end%Z.

End PySpec.

(** [w'] is [w] after the events [evs], the state file untouched. *)
Definition after (w : World) (evs : list event) (w' : World) : Prop :=
  state_file w' = state_file w /\ trace w' = trace w ++ evs.

(** Events of the document service only. *)
Definition exports_only (evs : list event) : Prop :=
  Forall (fun ev => exists i m, ev = DriveExportMedia i m) evs.

(** The export request [export_file_to_pdf] makes for a link, if any. *)
Definition export_events (file_url : string) : list event :=
  match parse_file_id file_url with
  | Ok file_id => [DriveExportMedia file_id "application/pdf"]
  | Raise _ => []
  end.

(** The events of the file resolution of a row that carries a description. *)
Definition resolution_events (row : list string) : list event :=
  if Py.truthy (cell row 3) then []
  else if Py.truthy (cell row 2) && Py.startswith (cell row 2) "http"
       then export_events (cell row 2)
       else [].

(** The request built for a row that carries a description. *)
Definition request_of (notion_db_id : string) (row : list string) : page_request :=
  {| parent_database_id := notion_db_id;
     properties :=
       build_properties (cell row 1) (cell row 4) (cell row 5) (cell row 6)
         (if Py.truthy (cell row 3) then Some (cell row 3) else None);
     children := [] |}.

(** What the events [evs] of a loop over [n] rows started with the loop
    variables [st] look like, according to the way the loop ended: the loop
    itself writes no file and prints nothing; it ends normally exactly when no
    creation failed, with the counter moved by [n] and one count per page
    created. *)
Definition loop_outcome (st : Z * Z) (n : nat) (evs : list event)
    (r : result (Z * Z)) : Prop :=
  file_writes evs = [] /\ printed evs = [] /\
  match r with
  | Ok (current_row, synced_count) =>
      failed_creations evs = [] /\
      current_row = (st.1 + Z.of_nat n)%Z /\
      synced_count = (st.2 + Z.of_nat (length (created_pages evs)))%Z
  | Raise _ => failed_creations evs <> []
  end.

(** [f"Synced {synced_count} new records. Last synced row: {current_row}."] *)
Definition summary (synced_count current_row : Z) : string :=
  ("Synced " ++ Py.str synced_count ++ " new records. Last synced row: "
   ++ Py.str current_row ++ ".")%string.

(** The five ways a run of [main] can go. *)
Inductive main_run (environ : gmap string string) (svc : Services) (w : World)
  : World -> result unit -> Prop :=
| run_refused e :
    ~ configured environ svc ->
    main_run environ svc w w (Raise e)
| run_fetch_failed sheet range e :
    configured environ svc ->
    fetched environ svc w = Raise e ->
    main_run environ svc w (log (SheetsValuesGet sheet range) w) (Raise e)
| run_no_rows sheet range :
    configured environ svc ->
    fetched environ svc w = Ok [] ->
    main_run environ svc w
      (log (PrintLine "No new rows to sync.") (log (SheetsValuesGet sheet range) w)) (Ok tt)
| run_aborted sheet range last rows evs w' e :
    configured environ svc ->
    watermark w = Ok last ->
    fetched environ svc w = Ok rows ->
    rows <> [] ->
    after (log (SheetsValuesGet sheet range) w) evs w' ->
    loop_outcome (last, 0%Z) (length rows) evs (Raise e) ->
    main_run environ svc w w' (Raise e)
| run_completed sheet range last rows evs w1 current_row synced_count :
    configured environ svc ->
    watermark w = Ok last ->
    fetched environ svc w = Ok rows ->
    rows <> [] ->
    after (log (SheetsValuesGet sheet range) w) evs w1 ->
    loop_outcome (last, 0%Z) (length rows) evs (Ok (current_row, synced_count)) ->
    main_run environ svc w
      (log (PrintLine (summary synced_count current_row))
         {| state_file := Some (Py.str current_row);
            trace := trace w1 ++ [StateFileWrite (Py.str current_row)] |})
      (Ok tt).

(** The same collaborators, except for the answers of the document service. *)
Definition with_drive (svc : Services)
    (answer : World -> string -> string -> result (list byte)) : Services :=
  {| from_service_account_file := from_service_account_file svc;
     sheets_values_get := sheets_values_get svc;
     drive_export_media := answer;
     notion_pages_create := notion_pages_create svc |}.

(** Concrete runs used to exercise the properties. *)
Module Scenario.

Definition environ : gmap string string :=
  list_to_map
    [("GOOGLE_SERVICE_ACCOUNT_FILE", "service-account.json");
     ("SHEET_ID", "sheet-1");
     ("NOTION_API_KEY", "secret");
     ("NOTION_DATABASE_ID", "db-1")].

(** Rows 6, 7 and 8 of the end-to-end scenario. *)
Definition batch : list (list string) :=
  [ [""; "A"; ""; "http://x/a.pdf"];
    [""; ""];
    [""; "B"; "https://docs.google.com/document/d/XYZ/edit"] ].

(** Three rows that all carry a description. *)
Definition full_batch : list (list string) :=
  [ [""; "A"; ""; "http://x/a.pdf"];
    [""; "B"; "https://docs.google.com/document/d/XYZ/edit"];
    [""; "C"] ].

(** A target store that accepts every request. *)
Definition accepts : World -> page_request -> option exn := fun _ _ => None.

(** A target store that rejects the second creation request of a run. *)
Definition rejects_second : World -> page_request -> option exn :=
  fun w _ =>
    if (length (created_pages (trace w)) =? 1)%nat
    then Some (ServiceError "APIResponseError") else None.

Definition services (rows : list (list string))
    (notion : World -> page_request -> option exn) : Services :=
  {| from_service_account_file := fun _ => None;
     sheets_values_get := fun _ _ _ => Ok (Some rows);
     drive_export_media := fun _ _ _ => Ok [x25; x50; x44; x46]%byte;
     notion_pages_create := notion |}.

(** The state file holds ["5"]; nothing has happened yet. *)
Definition at_five : World := {| state_file := Some "5"; trace := [] |}.

(** No state file; nothing has happened yet. *)
Definition fresh : World := {| state_file := None; trace := [] |}.

End Scenario.

(** ** Vocabulary of the further properties *)

(** [p] holds of every character of [s]. *)
Fixpoint all_chars (p : ascii -> bool) (s : string) : bool :=
  match s with
  | EmptyString => true
  | String c s' => p c && all_chars p s'
  end.


(** A digit or an underscore. *)
Definition literal_char (c : ascii) : bool :=
  match Py.digit_value c with
  | Some _ => true
  | None => Ascii.eqb c "_"
  end.

(** The characters an integer literal can be made of: digits, underscores,
    signs and white space. *)
Definition int_char (c : ascii) : bool :=
  literal_char c || Ascii.eqb c "+" || Ascii.eqb c "-" || Py.isspace c.

(** No ["/"] inside. *)
Definition slash_free (s : string) : bool :=
  all_chars (fun c => negb (Ascii.eqb c "/")) s.

(** The row carries a description. *)
Definition described (row : list string) : bool := Py.truthy (cell row 1).

(** The creation requests of a batch: one per row with a description, in the
    order of the rows. *)
Definition loop_requests (notion_db_id : string) (rows : list (list string))
  : list page_request :=
  map (request_of notion_db_id) (List.filter described rows).

(** The request [main] sends to the spreadsheet service when the watermark
    is [last]. *)
Definition fetch_request (environ : gmap string string) (last : Z) : event :=
  SheetsValuesGet (default "" (environ !! "SHEET_ID"))
    (default "Microneedling" (environ !! "WORKSHEET_NAME")
     ++ "!A" ++ Py.str (last + 1) ++ ":Z")%string.


(** More concrete inputs. *)
Module Cases.


End Cases.

(** * Properties *)

Example int_plain : Py.int "42" = Some 42%Z.
Proof. reflexivity. Qed.

Example int_padded : Py.int (String "009" (String "010" "-1_000 ")) = Some (-1000)%Z.
Proof. reflexivity. Qed.

Example int_rejects :
  Py.int "" = None /\ Py.int "1__0" = None /\ Py.int "_1" = None /\
  Py.int "1_" = None /\ Py.int "+ 1" = None /\ Py.int "3.5" = None /\
  Py.int "--1" = None.
Proof. repeat split; reflexivity. Qed.

Example str_samples :
  Py.str 0 = "0" /\ Py.str 8 = "8" /\ Py.str (-12) = "-12" /\ Py.str 1050 = "1050".
Proof. repeat split; reflexivity. Qed.

Example split_samples :
  Py.split "/" "" = [""] /\
  Py.split "/" "a//b/" = ["a"; ""; "b"; ""] /\
  Py.split "/" "https://docs.google.com/document/d/XYZ/edit"
  = ["https:"; ""; "docs.google.com"; "document"; "d"; "XYZ"; "edit"].
Proof. repeat split; reflexivity. Qed.

(** ** Facts about the built-ins *)

Module PyFacts.

Import Py PySpec.

Lemma lstrip_starts_visible s : starts_visible (lstrip s).
Proof.
  induction s as [|c s IH]; simpl; [exact I|].
  destruct (isspace c) eqn:E; [exact IH | exact E].
Qed.

Lemma lstrip_id s : starts_visible s -> lstrip s = s.
Proof. destruct s as [|c s]; simpl; [reflexivity|]. now intros ->. Qed.

Lemma rstrip_starts_visible s : starts_visible s -> starts_visible (rstrip s).
Proof.
  destruct s as [|c s]; simpl; [trivial|]. intros E.
  destruct (rstrip s); simpl; [now rewrite E | exact E].
Qed.

Lemma rstrip_idem s : rstrip (rstrip s) = rstrip s.
Proof.
  induction s as [|c s IH]; simpl; [reflexivity|].
  destruct (rstrip s) as [|c' r] eqn:E.
  - destruct (isspace c) eqn:Ec; simpl; [reflexivity | now rewrite Ec].
  - change (rstrip (String c (String c' r))) with
      (match rstrip (String c' r) with
       | EmptyString => if isspace c then EmptyString else String c EmptyString
       | r0 => String c r0
       end).
    now rewrite IH.
Qed.

Lemma strip_idem s : strip (strip s) = strip s.
Proof.
  unfold strip.
  rewrite (lstrip_id (rstrip (lstrip s))).
  - apply rstrip_idem.
  - apply rstrip_starts_visible, lstrip_starts_visible.
Qed.

(** [int] ignores white space on its own: stripping first changes nothing. *)
Lemma int_strip s : int (strip s) = int s.
Proof. unfold int. now rewrite strip_idem. Qed.

Lemma rstrip_visible s : visible s -> rstrip s = s.
Proof.
  induction s as [|c s IH]; simpl; [reflexivity|].
  intros [Ec Hs]. rewrite (IH Hs). destruct s; [now rewrite Ec | reflexivity].
Qed.

Lemma strip_visible s : visible s -> strip s = s.
Proof.
  intros H. unfold strip. rewrite lstrip_id.
  - now apply rstrip_visible.
  - destruct s; simpl in *; tauto.
Qed.

Lemma uint_value_acc d : forall acc,
  Z.pos (Pos.of_uint_acc d acc) = uint_value d (Z.pos acc).
Proof.
  induction d; intros acc; simpl; try reflexivity;
    rewrite IHd; f_equal; lia.
Qed.

Lemma uint_value_of_uint d : Z.of_N (Pos.of_uint d) = uint_value d 0.
Proof.
  induction d; simpl; try reflexivity; try exact IHd;
    now rewrite uint_value_acc.
Qed.

Lemma uint_value_to_uint p : uint_value (Pos.to_uint p) 0 = Z.pos p.
Proof. now rewrite <- uint_value_of_uint, DecimalPos.Unsigned.of_to. Qed.

Ltac eval_digit :=
  match goal with
  | |- context [digit_value ?c] =>
      let v := eval vm_compute in (digit_value c) in
      change (digit_value c) with v
  end.

Lemma int_digits_uint_true d : forall acc,
  int_digits (NilEmpty.string_of_uint d) acc true = Some (uint_value d acc).
Proof.
  induction d; intros acc; [reflexivity| ..];
    cbn -[Z.mul Z.add]; eval_digit; cbn iota; rewrite IHd; do 2 f_equal; lia.
Qed.

Lemma int_digits_uint d acc b :
  d <> Nil ->
  int_digits (NilEmpty.string_of_uint d) acc b = Some (uint_value d acc).
Proof.
  destruct d; intros Hd; [congruence| ..];
    cbn -[Z.mul Z.add]; eval_digit; cbn iota;
    rewrite int_digits_uint_true; do 2 f_equal; lia.
Qed.

Lemma visible_uint d : visible (NilEmpty.string_of_uint d).
Proof. induction d; simpl; auto. Qed.

Lemma int_of_numeral d :
  d <> Nil -> int (NilEmpty.string_of_uint d) = Some (uint_value d 0).
Proof.
  intros Hd. unfold int. rewrite (strip_visible _ (visible_uint d)).
  rewrite <- (int_digits_uint d 0 false Hd).
  destruct d; [congruence | reflexivity ..].
Qed.

Lemma int_of_negative_numeral d :
  d <> Nil ->
  int (String "-" (NilEmpty.string_of_uint d)) = Some (- uint_value d 0)%Z.
Proof.
  intros Hd. unfold int. rewrite strip_visible.
  - cbn [Ascii.eqb Bool.eqb]. now rewrite int_digits_uint.
  - split; [reflexivity | apply visible_uint].
Qed.

(** [int(str(z)) == z] for every integer. *)
Lemma int_str z : int (str z) = Some z.
Proof.
  pose proof DecimalPos.Unsigned.to_uint_nonnil as Hnn.
  destruct z as [|p|p]; [reflexivity| ..]; unfold str; cbn [Z.to_int].
  - replace (NilZero.string_of_int (Decimal.Pos (Pos.to_uint p)))
      with (NilEmpty.string_of_uint (Pos.to_uint p))
      by (cbn; destruct (Pos.to_uint p) eqn:E; [now apply Hnn in E | reflexivity ..]).
    now rewrite int_of_numeral, uint_value_to_uint.
  - replace (NilZero.string_of_int (Decimal.Neg (Pos.to_uint p)))
      with (String "-" (NilEmpty.string_of_uint (Pos.to_uint p)))
      by (cbn; destruct (Pos.to_uint p) eqn:E; [now apply Hnn in E | reflexivity ..]).
    now rewrite int_of_negative_numeral, uint_value_to_uint.
Qed.

End PyFacts.

(** ** Traces *)

Section Views.

Lemma created_pages_app a b : created_pages (a ++ b) = created_pages a ++ created_pages b.
Proof. apply omap_app. Qed.

Lemma failed_creations_app a b :
  failed_creations (a ++ b) = failed_creations a ++ failed_creations b.
Proof. apply omap_app. Qed.

Lemma file_writes_app a b : file_writes (a ++ b) = file_writes a ++ file_writes b.
Proof. apply omap_app. Qed.

Lemma export_requests_app a b :
  export_requests (a ++ b) = export_requests a ++ export_requests b.
Proof. apply omap_app. Qed.

Lemma printed_app a b : printed (a ++ b) = printed a ++ printed b.
Proof. apply omap_app. Qed.

End Views.

Create Rewrite HintDb views.

#[local] Hint Rewrite created_pages_app failed_creations_app file_writes_app
  export_requests_app printed_app : views.

Lemma after_nil w : after w [] w.
Proof. split; [reflexivity | now rewrite app_nil_r]. Qed.

Lemma after_log w ev : after w [ev] (log ev w).
Proof. split; reflexivity. Qed.

Lemma after_trans w1 w2 w3 e1 e2 :
  after w1 e1 w2 -> after w2 e2 w3 -> after w1 (e1 ++ e2) w3.
Proof.
  intros [S1 T1] [S2 T2]. split; [congruence|].
  rewrite T2, T1. now rewrite app_assoc.
Qed.

Lemma after_events w evs evs' w' :
  after w evs w' -> trace w' = trace w ++ evs' -> evs' = evs.
Proof. intros [_ T] T'. rewrite T in T'. now apply app_inv_head in T'. Qed.

Lemma exports_only_views evs :
  exports_only evs ->
  created_pages evs = [] /\ failed_creations evs = [] /\
  file_writes evs = [] /\ printed evs = [].
Proof.
  induction 1 as [|ev evs (i & m & ->) _ IH]; [repeat split|].
  exact IH.
Qed.

(** ** Facts about the script *)

Section ScriptFacts.

Variable environ : gmap string string.
Variable svc : Services.

Local Open Scope Z_scope.

Lemma index_lookup x l : forall i, Py.index x l = Some i -> l !! i = Some x.
Proof.
  induction l as [|y l IH]; intros i; simpl; [discriminate|].
  destruct (String.eqb_spec y x) as [->|_].
  - now intros [= <-].
  - destruct (Py.index x l) as [j|]; [|discriminate].
    intros [= <-]. now apply IH.
Qed.

Lemma parse_file_id_cases file_url :
  parse_file_id file_url = Raise ValueError \/
  parse_file_id file_url = Raise IndexError \/
  exists i file_id,
    Py.split "/" file_url !! i = Some "d" /\
    Py.split "/" file_url !! S i = Some file_id /\
    parse_file_id file_url = Ok file_id.
Proof.
  unfold parse_file_id.
  destruct (Py.contains "drive.google.com" file_url);
    (destruct (Py.index "d" (Py.split "/" file_url)) as [i|] eqn:Ei; [|now left]);
    apply index_lookup in Ei; replace (i + 1)%nat with (S i) by lia;
    (destruct (Py.split "/" file_url !! S i) as [file_id|] eqn:Eid;
     [right; right; now exists i, file_id | right; now left]).
Qed.

(** [export_file_to_pdf] never raises, and all it does is at most one
    export request. *)
Lemma export_file_to_pdf_after file_url w :
  exists data w',
    export_file_to_pdf svc file_url w = (w', Ok data) /\
    after w (export_events file_url) w'.
Proof.
  unfold export_file_to_pdf, export_events.
  destruct (parse_file_id_cases file_url) as [-> | [-> | (i & file_id & _ & _ & ->)]].
  - exists None, w. split; [reflexivity | apply after_nil].
  - exists None, w. split; [reflexivity | apply after_nil].
  - destruct (drive_export_media svc w file_id "application/pdf") as [pdf|e].
    + exists (Some pdf), (log (DriveExportMedia file_id "application/pdf") w).
      split; [reflexivity | apply after_log].
    + exists None, (log (DriveExportMedia file_id "application/pdf") w).
      split; [reflexivity | apply after_log].
Qed.

Lemma exports_only_resolution row : exports_only (resolution_events row).
Proof.
  unfold resolution_events, export_events.
  destruct (Py.truthy (cell row 3)); [constructor|].
  destruct (Py.truthy (cell row 2) && Py.startswith (cell row 2) "http"); [|constructor].
  destruct (parse_file_id (cell row 2)) as [file_id|e]; [|constructor].
  repeat constructor. now exists file_id, "application/pdf".
Qed.

Lemma resolution_events_pdf_link row :
  Py.truthy (cell row 3) = true -> resolution_events row = [].
Proof. intros H. unfold resolution_events. now rewrite H. Qed.

Lemma build_properties_file_name description category remark file_date url :
  build_properties description category remark file_date url !! "File Name"
  = Some (Title description).
Proof.
  unfold build_properties.
  destruct url as [u|]; [destruct (Py.truthy u)|];
    destruct (Py.truthy category), (Py.truthy remark), (Py.truthy file_date);
    repeat (rewrite lookup_insert_ne by discriminate);
    apply lookup_singleton_eq.
Qed.

Lemma build_properties_link description category remark file_date u :
  Py.truthy u = true ->
  build_properties description category remark file_date (Some u) !! "Link"
  = Some (Url u).
Proof. intros Hu. unfold build_properties. rewrite Hu. apply lookup_insert_eq. Qed.

Lemma build_properties_no_link description category remark file_date :
  build_properties description category remark file_date None !! "Link" = None.
Proof.
  unfold build_properties.
  destruct (Py.truthy category), (Py.truthy remark), (Py.truthy file_date);
    repeat (rewrite lookup_insert_ne by discriminate);
    now apply lookup_singleton_ne.
Qed.

(** A row without description: nothing happens but the counter moves. *)
Lemma process_row_skip notion_db_id current_row synced_count row w :
  Py.truthy (cell row 1) = false ->
  process_row svc notion_db_id (current_row, synced_count) row w
  = (w, Ok (current_row + 1, synced_count)).
Proof. intros H. unfold process_row. now rewrite H. Qed.

(** A row with a description: at most one export request, made only when
    there is no PDF link, then exactly one creation request. *)
Lemma process_row_valid notion_db_id current_row synced_count row w :
  Py.truthy (cell row 1) = true ->
  exists w1,
    after w (resolution_events row) w1 /\
    let req := request_of notion_db_id row in
    let raised := notion_pages_create svc w1 req in
    process_row svc notion_db_id (current_row, synced_count) row w
    = (log (NotionPagesCreate req raised) w1,
       match raised with
       | Some e => Raise e
       | None => Ok (current_row + 1, synced_count + 1)
       end).
Proof.
  intros Hd. unfold process_row, request_of, resolution_events. rewrite Hd. cbn [negb].
  destruct (Py.truthy (cell row 3)) eqn:Hp.
  - exists w. split; [apply after_nil|].
    cbn. unfold bind, ret, notion_create_entry.
    now destruct (notion_pages_create svc w _).
  - destruct (Py.truthy (cell row 2) && Py.startswith (cell row 2) "http").
    + destruct (export_file_to_pdf_after (cell row 2) w) as (data & w1 & E & Ha).
      exists w1. split; [exact Ha|].
      cbn. unfold bind at 1 2. rewrite E.
      destruct (Py.truthy_bytes data); unfold ret, bind, notion_create_entry;
        now destruct (notion_pages_create svc w1 _).
    + exists w. split; [apply after_nil|].
      cbn. unfold bind, ret, notion_create_entry.
      now destruct (notion_pages_create svc w _).
Qed.

End ScriptFacts.


(** ** The loop and the whole run *)

Section Runs.

Variable environ : gmap string string.
Variable svc : Services.

Local Open Scope Z_scope.

Lemma process_row_outcome notion_db_id st row w w' r :
  process_row svc notion_db_id st row w = (w', r) ->
  exists evs, after w evs w' /\ loop_outcome st 1 evs r.
Proof.
  destruct st as [current_row synced_count]. intros E.
  destruct (Py.truthy (cell row 1)) eqn:Hd.
  - destruct (process_row_valid svc notion_db_id current_row synced_count row w Hd)
      as (w1 & Ha & E').
    cbv zeta in E'. rewrite E' in E. clear E'.
    destruct (exports_only_views _ (exports_only_resolution row)) as (Hc & Hf & Hw & Hp).
    set (req := request_of notion_db_id row) in *.
    injection E as <- <-.
    exists (resolution_events row ++ [NotionPagesCreate req (notion_pages_create svc w1 req)]).
    split; [exact (after_trans _ _ _ _ _ Ha (after_log _ _))|].
    unfold loop_outcome. autorewrite with views. rewrite Hc, Hf, Hw, Hp.
    destruct (notion_pages_create svc w1 req); cbn; repeat split; discriminate.
  - rewrite (process_row_skip svc _ _ _ _ _ Hd) in E. injection E as <- <-.
    exists []. split; [apply after_nil|]. repeat split; simpl; lia.
Qed.

Lemma for_rows_outcome notion_db_id rows : forall st w w' r,
  for_rows svc notion_db_id st rows w = (w', r) ->
  exists evs, after w evs w' /\ loop_outcome st (length rows) evs r.
Proof.
  induction rows as [|row rows IH]; intros st w w' r E.
  - injection E as <- <-. exists []. split; [apply after_nil|].
    destruct st as [c n]. repeat split; simpl; lia.
  - cbn [for_rows] in E. unfold bind in E.
    destruct (process_row svc notion_db_id st row w) as [w1 [st1|e]] eqn:E1;
      destruct (process_row_outcome _ _ _ _ _ _ E1) as (e1 & Ha1 & Hw1 & Hp1 & H1).
    + destruct (IH _ _ _ _ E) as (e2 & Ha2 & Hw2 & Hp2 & H2).
      exists (e1 ++ e2). split; [exact (after_trans _ _ _ _ _ Ha1 Ha2)|].
      unfold loop_outcome. autorewrite with views. rewrite Hw1, Hw2, Hp1, Hp2.
      destruct st as [c n], st1 as [c1 n1]. destruct H1 as (Hf1 & -> & ->).
      cbn [fst snd] in *. rewrite Hf1.
      destruct r as [[c2 n2]|e].
      * destruct H2 as (Hf2 & -> & ->). rewrite Hf2.
        repeat split; rewrite ?length_app; cbn [length]; lia.
      * repeat split. exact H2.
    + injection E as <- <-. exists e1. split; [exact Ha1|].
      repeat split; assumption.
Qed.

Lemma get_google_services_cases w :
  forallb Py.truthy_opt
    [environ !! "SHEET_ID"; environ !! "NOTION_API_KEY"; environ !! "NOTION_DATABASE_ID"]
  = true ->
  (configured environ svc /\ get_google_services environ svc w = (w, Ok tt)) \/
  (~ configured environ svc /\ exists e, get_google_services environ svc w = (w, Raise e)).
Proof.
  intros Hc. unfold get_google_services, configured.
  cbn [forallb] in *. apply andb_prop in Hc as [-> Hc].
  apply andb_prop in Hc as [-> Hc]. apply andb_prop in Hc as [-> _]. cbn [andb].
  destruct (Py.truthy_opt (environ !! "GOOGLE_SERVICE_ACCOUNT_FILE")); cbn [negb andb].
  - destruct (from_service_account_file svc _) as [e|].
    + right. split; [intros [_ [=]] | now exists e].
    + left. now split.
  - right. split; [intros [[=] _] | eexists; reflexivity].
Qed.

(** Every run of [main] is one of the five runs of [main_run]. *)
Lemma main_runs w w' r :
  main environ svc w = (w', r) -> main_run environ svc w w' r.
Proof.
  unfold main.
  destruct (forallb Py.truthy_opt
              [environ !! "SHEET_ID"; environ !! "NOTION_API_KEY";
               environ !! "NOTION_DATABASE_ID"]) eqn:Hc; cbn [negb].
  2:{ intros [= <- <-]. apply run_refused. intros [H _].
      cbn [forallb] in *. rewrite !andb_true_iff in H. rewrite !andb_false_iff in Hc.
      destruct H as (H1 & H2 & H3 & _).
      destruct Hc as [Hc|[Hc|[Hc|Hc]]]; congruence. }
  destruct (get_google_services_cases w Hc) as [[Hcfg G] | [Hcfg [e G]]];
    unfold bind at 1; rewrite G.
  2:{ intros [= <- <-]. now apply run_refused. }
  assert (Hl : exists last, get_last_synced_row w = (w, Ok last)).
  { unfold get_last_synced_row, ret. destruct (state_file w) as [c|]; [|now eexists].
    destruct (Py.int (Py.strip c)); now eexists. }
  destruct Hl as [last Hl].
  assert (Hwm : watermark w = Ok last) by (unfold watermark; now rewrite Hl).
  unfold bind at 1. rewrite Hl.
  set (sheet := default "" (environ !! "SHEET_ID")).
  set (ws := default "Microneedling" (environ !! "WORKSHEET_NAME")).
  assert (Hf : fetched environ svc w = snd (read_sheet_rows svc sheet ws (last + 1) w)).
  { unfold fetched, bind. now rewrite Hl. }
  unfold bind at 1. unfold read_sheet_rows in *.
  set (range := (ws ++ "!A" ++ Py.str (last + 1) ++ ":Z")%string) in *.
  destruct (sheets_values_get svc w sheet range) as [resp|e]; cbn [snd] in Hf.
  2:{ intros [= <- <-]. now apply run_fetch_failed. }
  destruct (default [] resp) as [|row rows] eqn:Hrows.
  { intros [= <- <-]. now apply run_no_rows. }
  unfold bind at 1.
  destruct (for_rows svc _ (last, 0) (row :: rows) _) as [w1 [[current_row synced_count]|e]] eqn:E;
    destruct (for_rows_outcome _ _ _ _ _ _ E) as (evs & Ha & Ho).
  - unfold bind, update_last_synced_row, print. intros [= <- <-].
    eapply run_completed; eauto.
  - intros [= <- <-]. eapply run_aborted; eauto.
Qed.

End Runs.

(** ** The watermark reader *)

Lemma get_last_synced_row_total w :
  get_last_synced_row w = (w, watermark w) /\ exists n, watermark w = Ok n.
Proof.
  unfold watermark, get_last_synced_row, ret.
  destruct (state_file w) as [content|]; [|split; [reflexivity | now eexists]].
  destruct (Py.int (Py.strip content)); (split; [reflexivity | now eexists]).
Qed.





(** ** Export resolution *)


(** When such a pair of pieces exists, the piece after the first ["d"] is
    requested from the document service, be it empty. *)
Lemma export_with_file_id (svc : Services) (file_url : string) (w : World) i file_id :
  Py.index "d" (Py.split "/" file_url) = Some i ->
  Py.split "/" file_url !! S i = Some file_id ->
  export_file_to_pdf svc file_url w
  = (log (DriveExportMedia file_id "application/pdf") w,
     match drive_export_media svc w file_id "application/pdf" with
     | Ok pdf_data => Ok (Some pdf_data)
     | Raise _ => Ok None
     end).
Proof.
  intros Hi Hid. unfold export_file_to_pdf, parse_file_id.
  replace (if Py.contains "drive.google.com" file_url
           then Py.index "d" (Py.split "/" file_url)
           else Py.index "d" (Py.split "/" file_url))
    with (Some i) by now destruct (Py.contains _ _).
  replace (i + 1)%nat with (S i) by lia. rewrite Hid.
  now destruct (drive_export_media svc w file_id "application/pdf").
Qed.


(** ** One row *)

Lemma truthy_iff s : Py.truthy s = true <-> s <> "".
Proof. destruct s; simpl; split; congruence. Qed.




(** C5: for a row with a description and a non-empty PDF link, whatever its
    other cells hold, the only thing [process_row] does is one creation
    request, whose ["Link"] property is the URL payload of the PDF link as it
    stands; no export request is made. *)
Theorem pdf_link_is_recorded_verbatim (svc : Services) (notion_db_id : string)
    (current_row synced_count : Z) (row : list string) (w : World) :
  cell row 1 <> "" ->
  cell row 3 <> "" ->
  exists req,
    properties req !! "Link" = Some (Url (cell row 3)) /\
    process_row svc notion_db_id (current_row, synced_count) row w
    = (log (NotionPagesCreate req (notion_pages_create svc w req)) w,
       match notion_pages_create svc w req with
       | Some e => Raise e
       | None => Ok ((current_row + 1)%Z, (synced_count + 1)%Z)
       end) /\
    export_requests
      (trace (process_row svc notion_db_id (current_row, synced_count) row w).1)
    = export_requests (trace w).
Proof.
  intros Hd Hp. apply truthy_iff in Hd. pose proof Hp as Hp'. apply truthy_iff in Hp'.
  destruct (process_row_valid svc notion_db_id current_row synced_count row w Hd)
    as (w1 & [Hs Ht] & E).
  rewrite (resolution_events_pdf_link row Hp'), app_nil_r in Ht.
  assert (w1 = w) as -> by (destruct w1, w; simpl in *; congruence).
  exists (request_of notion_db_id row). split; [|split].
  - unfold request_of. cbn [properties]. rewrite Hp'.
    now apply build_properties_link.
  - exact E.
  - cbv zeta in E. rewrite E. cbn [fst log trace].
    rewrite export_requests_app. cbn. apply app_nil_r.
Qed.

Lemma pdf_link_is_recorded_verbatim_witness :
  let svc := {| from_service_account_file := fun _ => None;
                sheets_values_get := fun _ _ _ => Ok None;
                drive_export_media := fun _ _ _ => Ok [x25; x50]%byte;
                notion_pages_create := fun _ _ => None |} in
  let w := {| state_file := Some "5"; trace := [] |} in
  let row := [""; "A"; "https://docs.google.com/document/d/XYZ/edit"; "http://x/a.pdf"] in
  cell row 1 <> "" /\ cell row 3 <> "" /\
  exists req,
    properties req !! "Link" = Some (Url "http://x/a.pdf") /\
    process_row svc "db" (5, 0)%Z row w
    = (log (NotionPagesCreate req None) w, Ok (6, 1)%Z) /\
    export_requests (trace (process_row svc "db" (5, 0)%Z row w).1) = [].
Proof.
  cbv zeta. split; [discriminate|]. split; [discriminate|].
  apply (pdf_link_is_recorded_verbatim
           {| from_service_account_file := fun _ => None;
              sheets_values_get := fun _ _ _ => Ok None;
              drive_export_media := fun _ _ _ => Ok [x25; x50]%byte;
              notion_pages_create := fun _ _ => None |}
           "db" 5%Z 0%Z
           [""; "A"; "https://docs.google.com/document/d/XYZ/edit"; "http://x/a.pdf"]
           {| state_file := Some "5"; trace := [] |});
    discriminate.
Defined.


(** ** Exported content *)

Section Unattached.

Variable environ : gmap string string.
Variable svc : Services.
Variable answer : World -> string -> string -> result (list byte).

Lemma export_with_drive file_url w :
  exists data data' w',
    export_file_to_pdf (with_drive svc answer) file_url w = (w', Ok data') /\
    export_file_to_pdf svc file_url w = (w', Ok data).
Proof.
  unfold export_file_to_pdf.
  destruct (parse_file_id_cases file_url) as [-> | [-> | (i & file_id & _ & _ & ->)]].
  - now exists None, None, w.
  - now exists None, None, w.
  - cbn [with_drive drive_export_media].
    destruct (answer w file_id _), (drive_export_media svc w file_id _); eauto.
Qed.

Lemma process_row_with_drive notion_db_id st row w :
  process_row (with_drive svc answer) notion_db_id st row w
  = process_row svc notion_db_id st row w.
Proof.
  destruct st as [current_row synced_count]. unfold process_row.
  destruct (Py.truthy (cell row 1)); [cbn [negb] | reflexivity].
  destruct (Py.truthy (cell row 3)); [reflexivity|].
  destruct (Py.truthy (cell row 2) && Py.startswith (cell row 2) "http"); [|reflexivity].
  destruct (export_with_drive (cell row 2) w) as (data & data' & w' & E' & E).
  unfold bind at 1 2 4 5. rewrite E, E'.
  destruct (Py.truthy_bytes data), (Py.truthy_bytes data'); reflexivity.
Qed.

Lemma for_rows_with_drive notion_db_id rows : forall st w,
  for_rows (with_drive svc answer) notion_db_id st rows w
  = for_rows svc notion_db_id st rows w.
Proof.
  induction rows as [|row rows IH]; intros st w; [reflexivity|].
  cbn [for_rows]. unfold bind. rewrite process_row_with_drive.
  destruct (process_row svc notion_db_id st row w) as [w' [st'|e]]; [apply IH | reflexivity].
Qed.

Lemma main_with_drive w :
  main environ (with_drive svc answer) w = main environ svc w.
Proof.
  unfold main.
  destruct (negb _); [reflexivity|].
  unfold bind.
  change (get_google_services environ (with_drive svc answer) w)
    with (get_google_services environ svc w).
  destruct (get_google_services environ svc w) as [w1 [[]|e]]; [|reflexivity].
  destruct (get_last_synced_row w1) as [w2 [last|e]]; [|reflexivity].
  change (read_sheet_rows (with_drive svc answer)) with (read_sheet_rows svc).
  destruct (read_sheet_rows svc _ _ _ w2) as [w3 [[|row rows]|e]]; try reflexivity.
  now rewrite for_rows_with_drive.
Qed.

End Unattached.

(** C9: [notion_create_entry] issues the same request, with the same effect
    on the world and the same outcome, whatever [file_bytes] and [file_name]
    are; the request holds the database, the given properties and no child
    block.  Hence a whole run does the same and ends the same whatever the
    document service answers to the export requests. *)
Theorem exported_content_is_never_attached :
  (forall svc database_id props file_bytes file_name file_bytes' file_name' w,
     notion_create_entry svc database_id props file_bytes file_name w
     = notion_create_entry svc database_id props file_bytes' file_name' w) /\
  (forall svc database_id props file_bytes file_name w,
     let req := {| parent_database_id := database_id;
                   properties := props; children := [] |} in
     trace (notion_create_entry svc database_id props file_bytes file_name w).1
     = trace w ++ [NotionPagesCreate req (notion_pages_create svc w req)]) /\
  (forall environ svc answer w,
     main environ (with_drive svc answer) w = main environ svc w).
Proof.
  split; [|split].
  - reflexivity.
  - reflexivity.
  - intros. apply main_with_drive.
Qed.

(** ** Whole runs *)

Section WholeRuns.

Variable environ : gmap string string.
Variable svc : Services.

Local Open Scope Z_scope.

Lemma after_fetch sheet range w evs w' :
  after (log (SheetsValuesGet sheet range) w) evs w' ->
  after w (SheetsValuesGet sheet range :: evs) w'.
Proof. intros H. exact (after_trans _ _ _ _ _ (after_log _ _) H). Qed.

Lemma watermark_state_file w w' :
  state_file w' = state_file w -> watermark w' = watermark w.
Proof.
  intros H. unfold watermark, get_last_synced_row. rewrite H.
  destruct (state_file w) as [content|]; [destruct (Py.int (Py.strip content))|];
    reflexivity.
Qed.

Lemma watermark_written n tr :
  watermark {| state_file := Some (Py.str n); trace := tr |} = Ok n.
Proof.
  unfold watermark, get_last_synced_row. cbn [state_file].
  now rewrite PyFacts.int_strip, PyFacts.int_str.
Qed.

(** C10: when the configuration is accepted and the fetcher returns no row,
    the run ends normally after the fetch request and the line
    ["No new rows to sync."]; the state file is as it was, nothing is written
    to it and no creation request is made. *)
Theorem no_new_rows_leaves_state_file (w w' : World) (r : result unit) :
  configured environ svc ->
  fetched environ svc w = Ok [] ->
  main environ svc w = (w', r) ->
  r = Ok tt /\ state_file w' = state_file w /\
  exists sheet range,
    let evs := [SheetsValuesGet sheet range; PrintLine "No new rows to sync."] in
    trace w' = trace w ++ evs /\
    file_writes evs = [] /\ created_pages evs = [] /\ failed_creations evs = [].
Proof.
  intros Hcfg Hrows Hmain.
  destruct (main_runs _ _ _ _ _ Hmain)
    as [e Hno | sheet range e _ Hf | sheet range _ _
       | sheet range last rows evs w' e _ _ Hf Hne | sheet range last rows evs w1 c n _ _ Hf Hne].
  - contradiction.
  - congruence.
  - split; [reflexivity|]. split; [reflexivity|].
    exists sheet, range. cbn. split; [|repeat split]. now rewrite <- app_assoc.
  - congruence.
  - congruence.
Qed.

(** C1: when a creation request of the run raises, the run itself ends by
    raising, the state file holds what it held before the run and the run
    has written nothing to it. *)
Theorem failed_creation_keeps_watermark (w w' : World) (r : result unit)
    (evs : list event) :
  main environ svc w = (w', r) ->
  trace w' = trace w ++ evs ->
  failed_creations evs <> [] ->
  (exists e, r = Raise e) /\ state_file w' = state_file w /\ file_writes evs = [].
Proof.
  intros Hmain Htrace Hfailed.
  destruct (main_runs _ _ _ _ _ Hmain)
    as [e Hno | sheet range e _ Hf | sheet range _ _
       | sheet range last rows evs0 w' e _ _ Hf Hne Ha Ho
       | sheet range last rows evs0 w1 c n _ _ Hf Hne Ha Ho].
  - rewrite (after_events _ _ _ _ (after_nil w) Htrace) in Hfailed. now destruct Hfailed.
  - rewrite (after_events _ _ _ _ (after_log w _) Htrace) in Hfailed. now destruct Hfailed.
  - cbn in Htrace. rewrite <- app_assoc in Htrace. apply app_inv_head in Htrace as <-.
    now destruct Hfailed.
  - apply after_fetch in Ha. rewrite (after_events _ _ _ _ Ha Htrace).
    destruct Ha as [Hs _], Ho as (Hw & _). split; [now exists e|]. split; [exact Hs|].
    exact Hw.
  - exfalso. apply Hfailed. destruct Ha as [_ Ht], Ho as (_ & _ & Hok & _).
    cbn in Htrace. rewrite Ht in Htrace. cbn in Htrace.
    repeat rewrite <- app_assoc in Htrace. apply app_inv_head in Htrace as <-.
    cbn. rewrite failed_creations_app, Hok. reflexivity.
Qed.

(** C2, amended: a run that ends normally after fetching a batch of [n] rows
    from the watermark [last] writes the state file exactly once, with the
    decimal string of [last + n], when [n >= 1]; it writes nothing and leaves
    the state file as it is when [n = 0].  Either way the watermark the next
    run starts from is [last + n], which is not below [last]. *)
Theorem completed_run_advances_watermark (w w' : World) (last : Z)
    (rows : list (list string)) (evs : list event) :
  main environ svc w = (w', Ok tt) ->
  watermark w = Ok last ->
  fetched environ svc w = Ok rows ->
  trace w' = trace w ++ evs ->
  let n := Z.of_nat (length rows) in
  (rows <> [] ->
     state_file w' = Some (Py.str (last + n)) /\ file_writes evs = [Py.str (last + n)]) /\
  (rows = [] -> state_file w' = state_file w /\ file_writes evs = []) /\
  watermark w' = Ok (last + n) /\ last <= last + n.
Proof.
  intros Hmain Hlast Hrows Htrace n.
  remember (Ok tt) as r eqn:Hr.
  destruct (main_runs _ _ _ _ _ Hmain)
    as [e Hno | sheet range e _ Hf | sheet range _ Hf
       | sheet range last0 rows0 evs0 w' e _ _ Hf Hne Ha Ho
       | sheet range last0 rows0 evs0 w1 c k _ Hl Hf Hne Ha Ho];
    try discriminate Hr.
  - assert (rows = []) as -> by congruence. subst n.
    cbn in Htrace. rewrite <- app_assoc in Htrace. apply app_inv_head in Htrace as <-.
    split; [congruence|]. split; [now split|]. cbn [length Z.of_nat].
    rewrite Z.add_0_r. split; [|lia].
    rewrite <- Hlast. now apply watermark_state_file.
  - assert (rows0 = rows) as -> by congruence.
    assert (last0 = last) as -> by congruence.
    destruct Ha as [_ Ht], Ho as (Hw & _ & _ & Hc & _). cbn [fst] in Hc. subst c.
    cbn in Htrace. rewrite Ht in Htrace. cbn in Htrace.
    repeat rewrite <- app_assoc in Htrace. apply app_inv_head in Htrace as <-.
    fold n. split; [|split; [|split]].
    + intros _. split; [reflexivity|]. cbn. now rewrite file_writes_app, Hw.
    + intros ->. now destruct Hne.
    + rewrite <- (watermark_written (last + n) []).
      now apply watermark_state_file.
    + lia.
Qed.

End WholeRuns.

(** ** The end-to-end scenario *)

Section EndToEnd.

Variable environ : gmap string string.
Variable svc : Services.

Local Open Scope Z_scope.

Hypothesis Hconfigured : configured environ svc.
Hypothesis Haccepts : forall w req, notion_pages_create svc w req = None.

(** Past the configuration, the watermark and the fetch. *)
Lemma main_after_fetch w last rows :
  watermark w = Ok last ->
  fetched environ svc w = Ok rows ->
  exists sheet range,
    main environ svc w
    = match rows with
      | [] => print "No new rows to sync."
      | _ :: _ =>
          st <- for_rows svc (default "" (environ !! "NOTION_DATABASE_ID")) (last, 0) rows ;;
          update_last_synced_row st.1 ;; print (summary st.2 st.1)
      end (log (SheetsValuesGet sheet range) w).
Proof.
  intros Hlast Hrows.
  destruct (get_last_synced_row_total w) as [Hg _]. rewrite Hlast in Hg.
  pose proof Hconfigured as [Hc _]. cbn [forallb] in Hc.
  rewrite !andb_true_iff in Hc. destruct Hc as (H1 & H2 & H3 & _).
  assert (Hc : forallb Py.truthy_opt
                 [environ !! "SHEET_ID"; environ !! "NOTION_API_KEY";
                  environ !! "NOTION_DATABASE_ID"] = true)
    by (cbn [forallb]; now rewrite H1, H2, H3).
  destruct (get_google_services_cases environ svc w Hc) as [[_ G] | [Hno _]];
    [|contradiction].
  unfold fetched, bind in Hrows. rewrite Hg in Hrows.
  unfold main. rewrite Hc. cbn [negb].
  unfold bind at 1. rewrite G. unfold bind at 1. rewrite Hg. unfold bind at 1.
  unfold read_sheet_rows in *.
  eexists _, _.
  destruct (sheets_values_get svc w _ _) as [resp|e]; cbn [snd] in Hrows; [|discriminate].
  injection Hrows as ->.
  destruct rows as [|row rows]; [reflexivity|].
  unfold bind.
  destruct (for_rows svc _ _ _ _) as [w1 [[c n]|e]]; reflexivity.
Qed.

(** A row with a description, when the target store accepts the request. *)
Lemma process_row_accepted notion_db_id current_row synced_count row w :
  Py.truthy (cell row 1) = true ->
  process_row svc notion_db_id (current_row, synced_count) row w
  = ({| state_file := state_file w;
        trace := trace w ++ resolution_events row
                 ++ [NotionPagesCreate (request_of notion_db_id row) None] |},
     Ok (current_row + 1, synced_count + 1)).
Proof.
  intros Hd.
  destruct (process_row_valid svc notion_db_id current_row synced_count row w Hd)
    as (w1 & [Hs Ht] & E).
  cbv zeta in E. rewrite E, Haccepts. unfold log. now rewrite Hs, Ht, app_assoc.
Qed.

End EndToEnd.

(** C3: with watermark 5, an accepted configuration, a target store that
    accepts every request and a fetched batch of three rows, the first with
    description ["A"] and PDF link ["http://x/a.pdf"], the second with an
    empty description, the third with description ["B"] and link
    ["https://docs.google.com/document/d/XYZ/edit"], the run ends normally,
    creates exactly two records (titled ["A"], with the PDF link as its URL,
    and ["B"]), writes ["8"] to the state file and prints
    ["Synced 2 new records. Last synced row: 8."].  When the third row has no
    PDF link, its link leads to one export request, for ["XYZ"], and its
    record has no URL. *)
Theorem end_to_end_scenario (environ : gmap string string) (svc : Services)
    (w w' : World) (r : result unit) (r6 r7 r8 : list string) :
  configured environ svc ->
  (forall w0 req, notion_pages_create svc w0 req = None) ->
  watermark w = Ok 5%Z ->
  fetched environ svc w = Ok [r6; r7; r8] ->
  cell r6 1 = "A" -> cell r6 3 = "http://x/a.pdf" ->
  cell r7 1 = "" ->
  cell r8 1 = "B" -> cell r8 2 = "https://docs.google.com/document/d/XYZ/edit" ->
  main environ svc w = (w', r) ->
  r = Ok tt /\ state_file w' = Some "8" /\
  exists evs p6 p8,
    trace w' = trace w ++ evs /\
    created_pages evs = [p6; p8] /\
    properties p6 !! "File Name" = Some (Title "A") /\
    properties p6 !! "Link" = Some (Url "http://x/a.pdf") /\
    properties p8 !! "File Name" = Some (Title "B") /\
    file_writes evs = ["8"] /\
    printed evs = ["Synced 2 new records. Last synced row: 8."] /\
    (cell r8 3 = "" ->
       export_requests evs = ["XYZ"] /\ properties p8 !! "Link" = None).
Proof.
  intros Hcfg Hacc Hlast Hrows Hd6 Hp6 Hd7 Hd8 Hl8 Hmain.
  destruct (main_after_fetch environ svc Hcfg w 5%Z _ Hlast Hrows) as (sheet & range & E).
  rewrite E in Hmain. clear E.
  set (db := default "" (environ !! "NOTION_DATABASE_ID")) in *.
  set (w1 := log (SheetsValuesGet sheet range) w) in *.
  assert (Hr6 : resolution_events r6 = [])
    by (apply resolution_events_pdf_link; now rewrite Hp6).
  pose proof (process_row_accepted svc Hacc db 5%Z 0%Z r6 w1) as E6.
  rewrite Hd6, Hr6 in E6. specialize (E6 eq_refl).
  set (w2 := {| state_file := state_file w1; trace := _ |}) in E6.
  pose proof (process_row_skip svc db 6%Z 1%Z r7 w2) as E7.
  rewrite Hd7 in E7. specialize (E7 eq_refl).
  pose proof (process_row_accepted svc Hacc db 7%Z 1%Z r8 w2) as E8.
  rewrite Hd8 in E8. specialize (E8 eq_refl).
  cbn [for_rows] in Hmain. unfold bind at 1 2 in Hmain.
  change (5 + 1)%Z with 6%Z in E6. change (0 + 1)%Z with 1%Z in E6.
  rewrite E6 in Hmain. unfold bind at 1 in Hmain.
  change (6 + 1)%Z with 7%Z in E7.
  rewrite E7 in Hmain. unfold bind at 1 in Hmain.
  change (7 + 1)%Z with 8%Z in E8. change (1 + 1)%Z with 2%Z in E8.
  rewrite E8 in Hmain. cbn in Hmain.
  injection Hmain as <- <-.
  destruct (exports_only_views _ (exports_only_resolution r8)) as (Hc8 & _ & Hw8 & Hq8).
  split; [reflexivity|]. split; [reflexivity|].
  exists ([SheetsValuesGet sheet range; NotionPagesCreate (request_of db r6) None]
          ++ resolution_events r8 ++ [NotionPagesCreate (request_of db r8) None]
          ++ [StateFileWrite "8"; PrintLine "Synced 2 new records. Last synced row: 8."]),
    (request_of db r6), (request_of db r8).
  split; [|split; [|split; [|split; [|split; [|split; [|split]]]]]].
  - cbn. now repeat rewrite <- app_assoc.
  - autorewrite with views. now rewrite Hc8.
  - unfold request_of. cbn [properties]. rewrite Hd6. apply build_properties_file_name.
  - unfold request_of. cbn [properties]. rewrite Hp6. now apply build_properties_link.
  - unfold request_of. cbn [properties]. rewrite Hd8. apply build_properties_file_name.
  - autorewrite with views. now rewrite Hw8.
  - autorewrite with views. now rewrite Hq8.
  - intros Hp8. split.
    + autorewrite with views. unfold resolution_events. now rewrite Hp8, Hl8.
    + unfold request_of. cbn [properties]. rewrite Hp8. apply build_properties_no_link.
Qed.


(** ** The properties on concrete runs *)

Lemma end_to_end_scenario_witness :
  let svc := Scenario.services Scenario.batch Scenario.accepts in
  let run := main Scenario.environ svc Scenario.at_five in
  run.2 = Ok tt /\ state_file run.1 = Some "8" /\
  exists evs p6 p8,
    trace run.1 = trace Scenario.at_five ++ evs /\
    created_pages evs = [p6; p8] /\
    properties p6 !! "File Name" = Some (Title "A") /\
    properties p6 !! "Link" = Some (Url "http://x/a.pdf") /\
    properties p8 !! "File Name" = Some (Title "B") /\
    file_writes evs = ["8"] /\
    printed evs = ["Synced 2 new records. Last synced row: 8."] /\
    (cell [""; "B"; "https://docs.google.com/document/d/XYZ/edit"] 3 = "" ->
       export_requests evs = ["XYZ"] /\ properties p8 !! "Link" = None).
Proof.
  cbv zeta.
  apply (end_to_end_scenario Scenario.environ
           (Scenario.services Scenario.batch Scenario.accepts) Scenario.at_five
           (main Scenario.environ (Scenario.services Scenario.batch Scenario.accepts)
              Scenario.at_five).1
           (main Scenario.environ (Scenario.services Scenario.batch Scenario.accepts)
              Scenario.at_five).2
           [""; "A"; ""; "http://x/a.pdf"] [""; ""]
           [""; "B"; "https://docs.google.com/document/d/XYZ/edit"]).
  - split; reflexivity.
  - reflexivity.
  - reflexivity.
  - reflexivity.
  - reflexivity.
  - reflexivity.
  - reflexivity.
  - reflexivity.
  - reflexivity.
  - vm_compute. reflexivity.
Defined.

Lemma no_new_rows_leaves_state_file_witness :
  let svc := Scenario.services [] Scenario.accepts in
  let run := main Scenario.environ svc Scenario.at_five in
  configured Scenario.environ svc /\
  fetched Scenario.environ svc Scenario.at_five = Ok [] /\
  run.2 = Ok tt /\ state_file run.1 = Some "5" /\
  exists sheet range,
    let evs := [SheetsValuesGet sheet range; PrintLine "No new rows to sync."] in
    trace run.1 = trace Scenario.at_five ++ evs /\
    file_writes evs = [] /\ created_pages evs = [] /\ failed_creations evs = [].
Proof.
  cbv zeta.
  assert (Hcfg : configured Scenario.environ (Scenario.services [] Scenario.accepts))
    by (split; reflexivity).
  split; [exact Hcfg|]. split; [reflexivity|].
  apply (no_new_rows_leaves_state_file Scenario.environ
           (Scenario.services [] Scenario.accepts) Scenario.at_five
           (main Scenario.environ (Scenario.services [] Scenario.accepts) Scenario.at_five).1
           (main Scenario.environ (Scenario.services [] Scenario.accepts) Scenario.at_five).2
           Hcfg); reflexivity.
Defined.

Lemma failed_creation_keeps_watermark_witness :
  let svc := Scenario.services Scenario.full_batch Scenario.rejects_second in
  let run := main Scenario.environ svc Scenario.at_five in
  length (created_pages (trace run.1)) = 1%nat /\
  failed_creations (trace run.1) <> [] /\
  (exists e, run.2 = Raise e) /\
  state_file run.1 = Some "5" /\ file_writes (trace run.1) = [].
Proof.
  cbv zeta. split; [reflexivity|]. split; [vm_compute; discriminate|].
  apply (failed_creation_keeps_watermark Scenario.environ
           (Scenario.services Scenario.full_batch Scenario.rejects_second) Scenario.at_five
           (main Scenario.environ
              (Scenario.services Scenario.full_batch Scenario.rejects_second)
              Scenario.at_five).1
           (main Scenario.environ
              (Scenario.services Scenario.full_batch Scenario.rejects_second)
              Scenario.at_five).2).
  - reflexivity.
  - reflexivity.
  - vm_compute. discriminate.
Defined.

Lemma completed_run_advances_watermark_witness :
  let svc := Scenario.services Scenario.batch Scenario.accepts in
  let run := main Scenario.environ svc Scenario.at_five in
  run = (run.1, Ok tt) /\
  watermark Scenario.at_five = Ok 5%Z /\
  fetched Scenario.environ svc Scenario.at_five = Ok Scenario.batch /\
  (Scenario.batch <> [] ->
     state_file run.1 = Some "8" /\ file_writes (trace run.1) = ["8"]) /\
  (Scenario.batch = [] ->
     state_file run.1 = Some "5" /\ file_writes (trace run.1) = []) /\
  watermark run.1 = Ok 8%Z /\ (5 <= 8)%Z.
Proof.
  cbv zeta. split; [reflexivity|]. split; [reflexivity|]. split; [reflexivity|].
  apply (completed_run_advances_watermark Scenario.environ
           (Scenario.services Scenario.batch Scenario.accepts) Scenario.at_five
           (main Scenario.environ (Scenario.services Scenario.batch Scenario.accepts)
              Scenario.at_five).1
           5%Z Scenario.batch
           (trace (main Scenario.environ
                     (Scenario.services Scenario.batch Scenario.accepts)
                     Scenario.at_five).1)); reflexivity.
Defined.

(** C2 as stated fails on an empty batch: with no state file the watermark is
    1, the fetcher returns no row, the run ends normally, and yet nothing is
    written: there is still no state file afterwards, let alone one holding
    the decimal string of [1 + 0]. *)
Lemma empty_batch_writes_nothing :
  let svc := Scenario.services [] Scenario.accepts in
  let run := main Scenario.environ svc Scenario.fresh in
  watermark Scenario.fresh = Ok 1%Z /\
  fetched Scenario.environ svc Scenario.fresh = Ok [] /\
  run.2 = Ok tt /\
  file_writes (trace run.1) = [] /\
  state_file run.1 = None /\
  state_file run.1 <> Some (Py.str (1 + 0)).
Proof. cbv zeta. repeat split. discriminate. Qed.


(** * Further properties of the script *)

(** ** The state file *)

Module StateFileFacts.

Import Py PySpec PyFacts.








Lemma all_chars_weaken (p q : ascii -> bool) s :
  (forall c, p c = true -> q c = true) ->
  all_chars q s = false -> all_chars p s = false.
Proof.
  intros Hpq. induction s as [|c s IH]; simpl; [discriminate|].
  destruct (q c) eqn:Eq; simpl.
  - intros H. rewrite (IH H). apply andb_false_r.
  - intros _. destruct (p c) eqn:Ep; [|reflexivity].
    apply Hpq in Ep. congruence.
Qed.

Lemma lstrip_keeps_bad (p : ascii -> bool) s :
  (forall c, isspace c = true -> p c = true) ->
  all_chars p s = false -> all_chars p (lstrip s) = false.
Proof.
  intros Hsp. induction s as [|c s IH]; simpl; [discriminate|].
  destruct (isspace c) eqn:Ec.
  - rewrite (Hsp c Ec). exact IH.
  - simpl. trivial.
Qed.

Lemma rstrip_keeps_bad (p : ascii -> bool) s :
  (forall c, isspace c = true -> p c = true) ->
  all_chars p s = false -> all_chars p (rstrip s) = false.
Proof.
  intros Hsp. induction s as [|c s IH]; simpl; [discriminate|].
  destruct (p c) eqn:Ep; simpl.
  - intros H. specialize (IH H).
    destruct (rstrip s) as [|c' r]; [discriminate IH|].
    simpl. rewrite Ep. exact IH.
  - intros _. destruct (rstrip s) as [|c' r].
    + destruct (isspace c) eqn:Ec; [apply Hsp in Ec; congruence|].
      simpl. now rewrite Ep.
    + simpl. now rewrite Ep.
Qed.

Lemma int_digits_bad s : forall acc b,
  all_chars literal_char s = false -> int_digits s acc b = None.
Proof.
  induction s as [|c s IH]; intros acc b; simpl; [discriminate|].
  unfold literal_char at 1.
  destruct (digit_value c) as [d|]; simpl.
  - apply IH.
  - destruct (Ascii.eqb c "_"); simpl; [|reflexivity].
    intros H. destruct b; [now apply IH | reflexivity].
Qed.

(** [int] rejects every text that holds a character other than a digit, an
    underscore, a sign or white space. *)
Lemma int_bad_char s : all_chars int_char s = false -> int s = None.
Proof.
  intros H.
  assert (Hsp : forall c, isspace c = true -> int_char c = true)
    by (intros c Hc; unfold int_char; rewrite Hc; now rewrite !orb_true_r).
  assert (Hs : all_chars int_char (strip s) = false)
    by (apply rstrip_keeps_bad, lstrip_keeps_bad; assumption).
  assert (Hlit : forall t, all_chars int_char t = false -> all_chars literal_char t = false).
  { intros t. apply all_chars_weaken. intros c Hc. unfold int_char. now rewrite Hc. }
  unfold int. destruct (strip s) as [|c t]; [reflexivity|].
  destruct (Ascii.eqb_spec c "+") as [->|Hplus].
  - apply int_digits_bad, Hlit. exact Hs.
  - destruct (Ascii.eqb_spec c "-") as [->|Hminus].
    + rewrite int_digits_bad; [reflexivity|]. apply Hlit. exact Hs.
    + apply int_digits_bad, Hlit. exact Hs.
Qed.

End StateFileFacts.




(** X3: a state file that holds any character other than a digit, an
    underscore, a sign or white space (a letter, a decimal point, a comma)
    is read as watermark 1. *)
Theorem get_last_synced_row_rejects_foreign_characters (w : World) (content : string) :
  state_file w = Some content ->
  all_chars int_char content = false ->
  get_last_synced_row w = (w, Ok 1%Z).
Proof.
  intros Hfile Hbad. unfold get_last_synced_row. rewrite Hfile.
  now rewrite PyFacts.int_strip, (StateFileFacts.int_bad_char _ Hbad).
Qed.

Lemma get_last_synced_row_rejects_foreign_characters_witness :
  let w := {| state_file := Some "12.0"; trace := [] |} in
  state_file w = Some "12.0" /\ all_chars int_char "12.0" = false /\
  get_last_synced_row w = (w, Ok 1%Z).
Proof.
  cbv zeta. split; [reflexivity|]. split; [reflexivity|].
  apply (get_last_synced_row_rejects_foreign_characters
           {| state_file := Some "12.0"; trace := [] |} "12.0"); reflexivity.
Defined.

(** ** Export resolution *)

Module LinkFacts.

Import Py.

Lemma split_nonempty sep s : split sep s <> [].
Proof.
  destruct s as [|c s]; simpl; [discriminate|].
  destruct (Ascii.eqb c sep); [discriminate|].
  destruct (split sep s); discriminate.
Qed.

(** Splitting distributes over a separator. *)
Lemma split_app sep a b :
  split sep (a ++ String sep b)%string = split sep a ++ split sep b.
Proof.
  induction a as [|c a IH]; simpl.
  - now rewrite Ascii.eqb_refl.
  - destruct (Ascii.eqb c sep); [now rewrite IH|].
    rewrite IH. destruct (split sep a) as [|h t] eqn:E; [|reflexivity].
    now destruct (split_nonempty sep a).
Qed.

Lemma split_slash_free s : slash_free s = true -> split "/" s = [s].
Proof.
  induction s as [|c s IH]; simpl; [reflexivity|].
  intros H. apply andb_prop in H as [Hc Hs].
  apply negb_true_iff in Hc. rewrite Hc, (IH Hs). reflexivity.
Qed.

Lemma index_app_first x l1 l2 :
  index x l1 = None -> index x (l1 ++ x :: l2) = Some (length l1).
Proof.
  induction l1 as [|y l1 IH]; simpl.
  - now rewrite String.eqb_refl.
  - destruct (String.eqb y x); [discriminate|].
    destruct (index x l1); [discriminate|]. intros _. now rewrite IH.
Qed.

Lemma append_empty s : (s ++ "")%string = s.
Proof.
  induction s as [|c s IH]; [reflexivity|].
  change (String c (s ++ "")%string = String c s). now f_equal.
Qed.

End LinkFacts.

(** X4: for a share link [prefix/d/FILE_ID] or [prefix/d/FILE_ID/...], where
    no piece of the prefix is ["d"] and the identifier holds no slash,
    [export_file_to_pdf] issues exactly one export request, for [FILE_ID] in
    PDF; it returns the content when the service answers and [None], without
    raising, when the service raises. *)
Theorem export_requests_the_file_id (svc : Services) (w : World)
    (prefix file_id rest : string) :
  Py.index "d" (Py.split "/" prefix) = None ->
  slash_free file_id = true ->
  rest = "" \/ (exists tail, rest = String "/" tail) ->
  export_file_to_pdf svc (prefix ++ "/d/" ++ file_id ++ rest)%string w
  = (log (DriveExportMedia file_id "application/pdf") w,
     match drive_export_media svc w file_id "application/pdf" with
     | Ok pdf_data => Ok (Some pdf_data)
     | Raise _ => Ok None
     end).
Proof.
  intros Hprefix Hid Hrest.
  assert (Hparts : exists more,
             Py.split "/" (prefix ++ "/d/" ++ file_id ++ rest)%string
             = Py.split "/" prefix ++ "d" :: file_id :: more).
  { change (prefix ++ "/d/" ++ file_id ++ rest)%string
      with (prefix ++ String "/" ("d" ++ String "/" (file_id ++ rest)))%string.
    rewrite !LinkFacts.split_app. cbn [Py.split].
    destruct Hrest as [-> | [tail ->]].
    - exists []. rewrite LinkFacts.append_empty.
      now rewrite (LinkFacts.split_slash_free _ Hid).
    - exists (Py.split "/" tail).
      now rewrite LinkFacts.split_app, (LinkFacts.split_slash_free _ Hid). }
  destruct Hparts as [more Hparts].
  apply export_with_file_id with (i := length (Py.split "/" prefix)).
  - rewrite Hparts. now apply LinkFacts.index_app_first.
  - rewrite Hparts.
    change (Py.split "/" prefix ++ "d" :: file_id :: more)
      with (Py.split "/" prefix ++ ["d"] ++ file_id :: more).
    rewrite app_assoc. apply list_lookup_middle.
    rewrite length_app. simpl. lia.
Qed.

Lemma export_requests_the_file_id_witness :
  let svc := Scenario.services [] Scenario.accepts in
  (Py.index "d" (Py.split "/" "https://drive.google.com/file") = None /\
   slash_free "1AbC-x" = true /\
   export_file_to_pdf svc "https://drive.google.com/file/d/1AbC-x/view" Scenario.at_five
   = (log (DriveExportMedia "1AbC-x" "application/pdf") Scenario.at_five,
      Ok (Some [x25; x50; x44; x46]%byte))) /\
  (slash_free "XYZ?usp=sharing" = true /\
   export_file_to_pdf svc "https://docs.google.com/document/d/XYZ?usp=sharing"
     Scenario.at_five
   = (log (DriveExportMedia "XYZ?usp=sharing" "application/pdf") Scenario.at_five,
      Ok (Some [x25; x50; x44; x46]%byte))).
Proof.
  cbv zeta. split.
  - split; [reflexivity|]. split; [reflexivity|].
    apply (export_requests_the_file_id (Scenario.services [] Scenario.accepts)
             Scenario.at_five "https://drive.google.com/file" "1AbC-x" "/view");
      [reflexivity | reflexivity | right; exists "view"; reflexivity].
  - split; [reflexivity|].
    apply (export_requests_the_file_id (Scenario.services [] Scenario.accepts)
             Scenario.at_five "https://docs.google.com/document" "XYZ?usp=sharing" "");
      [reflexivity | reflexivity | left; reflexivity].
Defined.

Lemma world_eta w : {| state_file := state_file w; trace := trace w ++ [] |} = w.
Proof. destruct w as [f tr]. cbn. now rewrite app_nil_r. Qed.

(** X5: whatever the link and whatever the document service does,
    [export_file_to_pdf] never raises and never touches the state file; it
    issues at most one request, an export to PDF, and returns [None] when it
    issues none or when the service raises. *)
Theorem export_file_to_pdf_never_raises (svc : Services) (file_url : string) (w : World) :
  exists data evs,
    export_file_to_pdf svc file_url w
    = ({| state_file := state_file w; trace := trace w ++ evs |}, Ok data) /\
    ((evs = [] /\ data = None) \/
     (exists file_id,
        evs = [DriveExportMedia file_id "application/pdf"] /\
        data = match drive_export_media svc w file_id "application/pdf" with
               | Ok pdf_data => Some pdf_data
               | Raise _ => None
               end)).
Proof.
  unfold export_file_to_pdf.
  destruct (parse_file_id_cases file_url) as [-> | [-> | (i & file_id & _ & _ & ->)]].
  - exists None, []. rewrite world_eta. split; [reflexivity | now left].
  - exists None, []. rewrite world_eta. split; [reflexivity | now left].
  - destruct (drive_export_media svc w file_id "application/pdf") as [pdf|e] eqn:E.
    + exists (Some pdf), [DriveExportMedia file_id "application/pdf"].
      split; [reflexivity|]. right. exists file_id. now rewrite E.
    + exists None, [DriveExportMedia file_id "application/pdf"].
      split; [reflexivity|]. right. exists file_id. now rewrite E.
Qed.

(** ** The record of a row *)

(** X6: the properties of a record.  ["File Name"] is always the title made
    of the description; ["Category"], ["Remark"] and ["File Date"] are there
    exactly when their cell is not empty, ["Link"] exactly when a non-empty
    URL is given; there is no other property. *)
Theorem build_properties_lookup (description category remark file_date : string)
    (file_url_for_notion : option string) :
  let props :=
    build_properties description category remark file_date file_url_for_notion in
  props !! "File Name" = Some (Title description) /\
  props !! "Category" = (if Py.truthy category then Some (Select category) else None) /\
  props !! "Remark" = (if Py.truthy remark then Some (RichText remark) else None) /\
  props !! "File Date" = (if Py.truthy file_date then Some (Date file_date) else None) /\
  props !! "Link" = (if Py.truthy_opt file_url_for_notion
                     then Url <$> file_url_for_notion else None) /\
  (forall key,
     key <> "File Name" -> key <> "Category" -> key <> "Remark" ->
     key <> "File Date" -> key <> "Link" -> props !! key = None).
Proof.
  cbv zeta. unfold build_properties.
  destruct file_url_for_notion as [u|]; cbn [Py.truthy_opt];
    [destruct (Py.truthy u)|];
    destruct (Py.truthy category), (Py.truthy remark), (Py.truthy file_date);
    repeat split; intros; simplify_map_eq; reflexivity.
Qed.

Lemma build_properties_lookup_link description category remark file_date url :
  build_properties description category remark file_date url !! "Link"
  = (if Py.truthy_opt url then Url <$> url else None).
Proof.
  unfold build_properties.
  destruct url as [u|]; cbn [Py.truthy_opt]; [destruct (Py.truthy u)|];
    destruct (Py.truthy category), (Py.truthy remark), (Py.truthy file_date);
    simplify_map_eq; reflexivity.
Qed.

Lemma export_events_short file_url : (length (export_events file_url) <= 1)%nat.
Proof. unfold export_events. destruct (parse_file_id file_url); simpl; lia. Qed.

(** X7: a row with a description always leads to exactly one creation
    request, the last thing done for the row, whatever happens to the export:
    before it there is at most one export request, and none when the row has
    a PDF link or when its link does not start with ["http"].  The record has
    a ["Link"] exactly when the row has a PDF link: the link cell itself is
    never recorded. *)
Theorem described_row_is_recorded (svc : Services) (notion_db_id : string)
    (current_row synced_count : Z) (row : list string) (w : World) :
  cell row 1 <> "" ->
  exists exports raised,
    process_row svc notion_db_id (current_row, synced_count) row w
    = ({| state_file := state_file w;
          trace := trace w ++ exports
                   ++ [NotionPagesCreate (request_of notion_db_id row) raised] |},
       match raised with
       | Some e => Raise e
       | None => Ok ((current_row + 1)%Z, (synced_count + 1)%Z)
       end) /\
    exports_only exports /\ (length exports <= 1)%nat /\
    (cell row 3 <> "" \/ Py.startswith (cell row 2) "http" = false -> exports = []) /\
    properties (request_of notion_db_id row) !! "Link"
    = (if Py.truthy (cell row 3) then Some (Url (cell row 3)) else None).
Proof.
  intros Hd. apply truthy_iff in Hd.
  destruct (process_row_valid svc notion_db_id current_row synced_count row w Hd)
    as (w1 & [Hs Ht] & E).
  exists (resolution_events row),
    (notion_pages_create svc w1 (request_of notion_db_id row)).
  split; [|split; [|split; [|split]]].
  - cbv zeta in E. rewrite E. unfold log. now rewrite Hs, Ht, app_assoc.
  - apply exports_only_resolution.
  - unfold resolution_events.
    destruct (Py.truthy (cell row 3)); [simpl; lia|].
    destruct (_ && _); [apply export_events_short | simpl; lia].
  - unfold resolution_events. intros [Hp | Hl].
    + apply truthy_iff in Hp. now rewrite Hp.
    + rewrite Hl, andb_false_r. now destruct (Py.truthy (cell row 3)).
  - unfold request_of. cbn [properties]. rewrite build_properties_lookup_link.
    now destruct (Py.truthy (cell row 3)) eqn:Hp; cbn [Py.truthy_opt]; rewrite ?Hp.
Qed.

Lemma described_row_is_recorded_witness :
  let svc := Scenario.services [] Scenario.accepts in
  let row := [""; "B"; "https://docs.google.com/document/d/XYZ/edit"] in
  cell row 1 <> "" /\
  exists exports raised,
    process_row svc "db-1" (7, 1)%Z row Scenario.at_five
    = ({| state_file := Some "5";
          trace := [] ++ exports ++ [NotionPagesCreate (request_of "db-1" row) raised] |},
       match raised with
       | Some e => Raise e
       | None => Ok (8, 2)%Z
       end) /\
    exports_only exports /\ (length exports <= 1)%nat /\
    (cell row 3 <> "" \/ Py.startswith (cell row 2) "http" = false -> exports = []) /\
    properties (request_of "db-1" row) !! "Link" = None.
Proof.
  cbv zeta. split; [discriminate|].
  apply (described_row_is_recorded (Scenario.services [] Scenario.accepts) "db-1" 7%Z 1%Z
           [""; "B"; "https://docs.google.com/document/d/XYZ/edit"] Scenario.at_five).
  discriminate.
Defined.

(** ** Batches *)

Section Batches.

Variable environ : gmap string string.
Variable svc : Services.

Local Open Scope Z_scope.

(** The requests of a loop: on a normal end, one page per described row, in
    order; on an abort, the pages of the described rows before the failing
    one, and that single failure. *)
Lemma for_rows_requests notion_db_id rows : forall st w w' r,
  for_rows svc notion_db_id st rows w = (w', r) ->
  exists evs,
    after w evs w' /\
    match r with
    | Ok _ =>
        created_pages evs = loop_requests notion_db_id rows /\
        failed_creations evs = []
    | Raise _ =>
        exists done failing rest,
          List.filter described rows = done ++ failing :: rest /\
          created_pages evs = map (request_of notion_db_id) done /\
          failed_creations evs = [request_of notion_db_id failing]
    end.
Proof.
  induction rows as [|row rows IH]; intros [c n] w w' r E.
  - injection E as <- <-. exists []. split; [apply after_nil | now split].
  - cbn [for_rows] in E. unfold bind in E.
    destruct (described row) eqn:Hdr; pose proof Hdr as Hd; unfold described in Hd.
    + destruct (process_row_valid svc notion_db_id c n row w Hd) as (w1 & Ha & E1).
      cbv zeta in E1. rewrite E1 in E. clear E1.
      destruct (exports_only_views _ (exports_only_resolution row)) as (Hc & Hf & _ & _).
      set (req := request_of notion_db_id row) in *.
      destruct (notion_pages_create svc w1 req) as [e|] eqn:Hraised.
      * injection E as <- <-.
        exists (resolution_events row ++ [NotionPagesCreate req (Some e)]).
        split; [exact (after_trans _ _ _ _ _ Ha (after_log _ _))|].
        exists [], row, (List.filter described rows).
        autorewrite with views. rewrite Hc, Hf. cbn [List.filter]. rewrite Hdr.
        now repeat split.
      * destruct (IH _ _ _ _ E) as (evs & Ha2 & H2).
        exists ((resolution_events row ++ [NotionPagesCreate req None]) ++ evs).
        split; [exact (after_trans _ _ _ _ _ (after_trans _ _ _ _ _ Ha (after_log _ _)) Ha2)|].
        autorewrite with views. rewrite Hc, Hf. cbn [app].
        unfold loop_requests. cbn [List.filter]. rewrite Hdr.
        destruct r as [st|e].
        -- destruct H2 as [-> ->]. now split.
        -- destruct H2 as (done & failing & rest & -> & -> & ->).
           exists (row :: done), failing, rest. now repeat split.
    + rewrite (process_row_skip svc _ _ _ _ _ Hd) in E.
      destruct (IH _ _ _ _ E) as (evs & Ha2 & H2).
      exists evs. split; [exact Ha2|].
      unfold loop_requests. cbn [List.filter]. rewrite Hdr. exact H2.
Qed.

Hypothesis Hconfigured : configured environ svc.

(** A configured run, from the fetch on. *)
Lemma main_fetches w last :
  watermark w = Ok last ->
  main environ svc w
  = match fetched environ svc w with
    | Raise e => (log (fetch_request environ last) w, Raise e)
    | Ok [] =>
        (log (PrintLine "No new rows to sync.") (log (fetch_request environ last) w), Ok tt)
    | Ok rows =>
        (st <- for_rows svc (default "" (environ !! "NOTION_DATABASE_ID")) (last, 0) rows ;;
         update_last_synced_row st.1 ;; print (summary st.2 st.1))
          (log (fetch_request environ last) w)
    end.
Proof.
  intros Hlast.
  destruct (get_last_synced_row_total w) as [Hg _]. rewrite Hlast in Hg.
  pose proof Hconfigured as [Hc _]. cbn [forallb] in Hc.
  rewrite !andb_true_iff in Hc. destruct Hc as (H1 & H2 & H3 & _).
  assert (Hc : forallb Py.truthy_opt
                 [environ !! "SHEET_ID"; environ !! "NOTION_API_KEY";
                  environ !! "NOTION_DATABASE_ID"] = true)
    by (cbn [forallb]; now rewrite H1, H2, H3).
  destruct (get_google_services_cases environ svc w Hc) as [[_ G] | [Hno _]];
    [|contradiction].
  unfold fetched, main. rewrite Hc. cbn [negb].
  unfold bind. rewrite G, Hg.
  unfold read_sheet_rows, fetch_request.
  destruct (sheets_values_get svc w _ _) as [resp|e]; cbn [snd]; [|reflexivity].
  destruct (default [] resp) as [|row rows]; [reflexivity|].
  destruct (for_rows svc _ _ _ _) as [w1 [[c n]|e]]; reflexivity.
Qed.

End Batches.


(** ** Runs *)

Lemma after_unique w evs evs' w' : after w evs w' -> after w evs' w' -> evs' = evs.
Proof. intros H [_ T]. exact (after_events _ _ _ _ H T). Qed.


(** X8: a run whose configuration is not accepted (one of the three required
    variables or the credentials variable is unset or empty, or the
    credentials do not load) raises before doing anything: the world is
    exactly as before, no request was made.  When one of [SHEET_ID],
    [NOTION_API_KEY], [NOTION_DATABASE_ID] is unset or empty the exception is
    the [RuntimeError] of [main], whatever the credentials are. *)
Theorem unconfigured_run_does_nothing (environ : gmap string string) (svc : Services)
    (w : World) :
  ~ configured environ svc ->
  exists e,
    main environ svc w = (w, Raise e) /\
    (forallb Py.truthy_opt
       [environ !! "SHEET_ID"; environ !! "NOTION_API_KEY"; environ !! "NOTION_DATABASE_ID"]
     = false ->
     e = RuntimeError
           "SHEET_ID, NOTION_API_KEY, and NOTION_DATABASE_ID environment variables must be set").
Proof.
  intros Hno. unfold main.
  destruct (forallb Py.truthy_opt
              [environ !! "SHEET_ID"; environ !! "NOTION_API_KEY";
               environ !! "NOTION_DATABASE_ID"]) eqn:Hc; cbn [negb].
  - destruct (get_google_services_cases environ svc w Hc) as [[Hcfg _] | [_ [e G]]];
      [contradiction|].
    exists e. unfold bind. rewrite G. split; [reflexivity | discriminate].
  - eexists. split; [reflexivity | reflexivity].
Qed.

Lemma unconfigured_run_does_nothing_witness :
  let environ : gmap string string := <["NOTION_API_KEY" := ""]> Scenario.environ in
  let svc := Scenario.services Scenario.batch Scenario.accepts in
  ~ configured environ svc /\
  exists e,
    main environ svc Scenario.at_five = (Scenario.at_five, Raise e) /\
    (forallb Py.truthy_opt
       [environ !! "SHEET_ID"; environ !! "NOTION_API_KEY"; environ !! "NOTION_DATABASE_ID"]
     = false ->
     e = RuntimeError
           "SHEET_ID, NOTION_API_KEY, and NOTION_DATABASE_ID environment variables must be set").
Proof.
  cbv zeta.
  assert (Hno : ~ configured (<["NOTION_API_KEY" := ""]> Scenario.environ)
                  (Scenario.services Scenario.batch Scenario.accepts))
    by (intros [H _]; vm_compute in H; discriminate H).
  split; [exact Hno|].
  exact (unconfigured_run_does_nothing (<["NOTION_API_KEY" := ""]> Scenario.environ)
           (Scenario.services Scenario.batch Scenario.accepts) Scenario.at_five Hno).
Defined.

Section ConfiguredRuns.

Variable environ : gmap string string.
Variable svc : Services.

Local Open Scope Z_scope.

Hypothesis Hconfigured : configured environ svc.


End ConfiguredRuns.







Section Records.

Variable environ : gmap string string.
Variable svc : Services.

Local Open Scope Z_scope.

Lemma records_of_completed_run w w' rows evs :
  main environ svc w = (w', Ok tt) ->
  fetched environ svc w = Ok rows ->
  trace w' = trace w ++ evs ->
  let requests := loop_requests (default "" (environ !! "NOTION_DATABASE_ID")) rows in
  created_pages evs = requests /\ failed_creations evs = [] /\
  (rows <> [] ->
   forall last, watermark w = Ok last ->
     printed evs
     = [summary (Z.of_nat (length requests)) (last + Z.of_nat (length rows))]).
Proof.
  intros Hmain Hrows Htrace requests. subst requests.
  assert (Hcfg : configured environ svc).
  { remember (Ok tt) as r eqn:Hr.
    destruct (main_runs _ _ _ _ _ Hmain); try discriminate Hr; assumption. }
  destruct (get_last_synced_row_total w) as [_ [last Hlast]].
  rewrite (main_fetches environ svc Hcfg w last Hlast), Hrows in Hmain.
  destruct rows as [|row rows].
  - injection Hmain as <-. cbn in Htrace. rewrite <- app_assoc in Htrace.
    apply app_inv_head in Htrace as <-. now repeat split.
  - unfold bind in Hmain.
    destruct (for_rows svc _ _ _ _) as [w1 [[c n]|e]] eqn:E; [|discriminate Hmain].
    destruct (for_rows_requests _ _ _ _ _ _ _ E) as (evs1 & Ha & Hc & Hf).
    destruct (for_rows_outcome _ _ _ _ _ _ _ E) as (evs2 & Ha2 & Hw & Hp & _ & Hcur & Hcnt).
    rewrite (after_unique _ _ _ _ Ha Ha2) in *. clear Ha2.
    cbn [fst snd] in Hcur, Hcnt. injection Hmain as <-.
    destruct Ha as [_ Ht]. cbn in Htrace. rewrite Ht in Htrace. cbn in Htrace.
    repeat rewrite <- app_assoc in Htrace. apply app_inv_head in Htrace as <-.
    cbn. autorewrite with views. rewrite Hc, Hf, Hp. cbn.
    split; [now rewrite app_nil_r|]. split; [reflexivity|].
    intros _ last' Hlast'. assert (last' = last) as -> by congruence.
    rewrite Hcur, Hcnt, Hc. reflexivity.
Qed.

Lemma records_of_aborted_run w w' e rows evs :
  configured environ svc ->
  main environ svc w = (w', Raise e) ->
  fetched environ svc w = Ok rows ->
  trace w' = trace w ++ evs ->
  exists done failing rest,
    List.filter described rows = done ++ failing :: rest /\
    created_pages evs
    = map (request_of (default "" (environ !! "NOTION_DATABASE_ID"))) done /\
    failed_creations evs
    = [request_of (default "" (environ !! "NOTION_DATABASE_ID")) failing].
Proof.
  intros Hcfg Hmain Hrows Htrace.
  destruct (get_last_synced_row_total w) as [_ [last Hlast]].
  rewrite (main_fetches environ svc Hcfg w last Hlast), Hrows in Hmain.
  destruct rows as [|row rows]; [discriminate Hmain|].
  unfold bind in Hmain.
  destruct (for_rows svc _ _ _ _) as [w1 [[c n]|e1]] eqn:E; [discriminate Hmain|].
  destruct (for_rows_requests _ _ _ _ _ _ _ E)
    as (evs1 & [_ Ht] & done & failing & rest & Hfilter & Hc & Hf).
  injection Hmain as <- <-. rewrite Ht in Htrace. cbn in Htrace.
  rewrite <- app_assoc in Htrace. apply app_inv_head in Htrace as <-.
  exists done, failing, rest. cbn. now repeat split.
Qed.


End Records.

(** X12: in a run that ends normally, the pages created are exactly the
    requests of the fetched rows that carry a description, one per row and in
    the order of the rows; no creation failed; and the summary line counts
    those pages and names the last fetched row. *)
Theorem completed_run_records (environ : gmap string string) (svc : Services)
    (w w' : World) (rows : list (list string)) (evs : list event) :
  main environ svc w = (w', Ok tt) ->
  fetched environ svc w = Ok rows ->
  trace w' = trace w ++ evs ->
  let requests := loop_requests (default "" (environ !! "NOTION_DATABASE_ID")) rows in
  created_pages evs = requests /\ failed_creations evs = [] /\
  (rows <> [] ->
   forall last, watermark w = Ok last ->
     printed evs
     = [summary (Z.of_nat (length requests)) (last + Z.of_nat (length rows))]).
Proof. apply records_of_completed_run. Qed.


Lemma completed_run_records_witness :
  let svc := Scenario.services Scenario.batch Scenario.accepts in
  let run := main Scenario.environ svc Scenario.at_five in
  let requests := loop_requests "db-1" Scenario.batch in
  run = (run.1, Ok tt) /\
  fetched Scenario.environ svc Scenario.at_five = Ok Scenario.batch /\
  length requests = 2%nat /\
  created_pages (trace run.1) = requests /\ failed_creations (trace run.1) = [] /\
  (Scenario.batch <> [] ->
   forall last, watermark Scenario.at_five = Ok last ->
     printed (trace run.1)
     = [summary (Z.of_nat (length requests)) (last + Z.of_nat (length Scenario.batch))]).
Proof.
  cbv zeta. split; [reflexivity|]. split; [reflexivity|]. split; [reflexivity|].
  apply (completed_run_records Scenario.environ
           (Scenario.services Scenario.batch Scenario.accepts) Scenario.at_five
           (main Scenario.environ (Scenario.services Scenario.batch Scenario.accepts)
              Scenario.at_five).1
           Scenario.batch
           (trace (main Scenario.environ
                     (Scenario.services Scenario.batch Scenario.accepts)
                     Scenario.at_five).1)); reflexivity.
Defined.




(** X15: a retry after an aborted run creates again every page the aborted
    run had created: when the run that follows fetches the same rows and ends
    normally, its pages start with the pages of the aborted run, followed by
    the page whose creation had failed. *)
Theorem retry_recreates_pages (environ : gmap string string) (svc svc' : Services)
    (w w' w'' : World) (e : exn) (rows : list (list string)) (evs evs' : list event) :
  configured environ svc ->
  main environ svc w = (w', Raise e) ->
  fetched environ svc w = Ok rows ->
  trace w' = trace w ++ evs ->
  main environ svc' w' = (w'', Ok tt) ->
  fetched environ svc' w' = Ok rows ->
  trace w'' = trace w' ++ evs' ->
  exists more,
    created_pages evs' = created_pages evs ++ failed_creations evs ++ more.
Proof.
  intros Hcfg Hfirst Hrows Hevs Hsecond Hrows' Hevs'.
  destruct (records_of_aborted_run environ svc w w' e rows evs Hcfg Hfirst Hrows Hevs)
    as (done & failing & rest & Hfilter & -> & ->).
  destruct (records_of_completed_run environ svc' w' w'' rows evs' Hsecond Hrows' Hevs')
    as (-> & _).
  unfold loop_requests. rewrite Hfilter, map_app. cbn [map].
  now exists (map (request_of (default "" (environ !! "NOTION_DATABASE_ID"))) rest).
Qed.

Lemma retry_recreates_pages_witness :
  let failing := Scenario.services Scenario.full_batch Scenario.rejects_second in
  let working := Scenario.services Scenario.full_batch Scenario.accepts in
  let first := main Scenario.environ failing Scenario.at_five in
  let second := main Scenario.environ working first.1 in
  let evs' := drop (length (trace first.1)) (trace second.1) in
  configured Scenario.environ failing /\
  first = (first.1, Raise (ServiceError "APIResponseError")) /\
  second = (second.1, Ok tt) /\
  trace second.1 = trace first.1 ++ evs' /\
  length (created_pages (trace first.1)) = 1%nat /\
  exists more,
    created_pages evs'
    = created_pages (trace first.1) ++ failed_creations (trace first.1) ++ more.
Proof.
  cbv zeta.
  assert (Hcfg : configured Scenario.environ
                   (Scenario.services Scenario.full_batch Scenario.rejects_second))
    by (split; reflexivity).
  split; [exact Hcfg|]. split; [reflexivity|]. split; [reflexivity|].
  split; [reflexivity|]. split; [reflexivity|].
  set (first := main Scenario.environ
                  (Scenario.services Scenario.full_batch Scenario.rejects_second)
                  Scenario.at_five).
  set (second := main Scenario.environ
                   (Scenario.services Scenario.full_batch Scenario.accepts) first.1).
  apply (retry_recreates_pages Scenario.environ
           (Scenario.services Scenario.full_batch Scenario.rejects_second)
           (Scenario.services Scenario.full_batch Scenario.accepts)
           Scenario.at_five first.1 second.1 (ServiceError "APIResponseError")
           Scenario.full_batch (trace first.1)
           (drop (length (trace first.1)) (trace second.1)) Hcfg); reflexivity.
Defined.


